(** * Shallow embedding of the mortgage loan pipeline

    Sources embedded:
    - [src/unnamed/part_000]                     loan service, [app.post('/loans')]
    - [src/doc-verification-service/src/index.js] [verifyDocuments], [processMessage],
                                                   [pollMessages]
    - [src/eligibility-lambda/index.js]            [calculateEligibility], [handler]

    The JavaScript code is [async] and throws; it is modelled in a small
    reader/state/exception monad [M]: the reader part is the environment
    ([Math.random()], the outcome of each SQS/SNS call, the
    [LOAN_APPROVED_TOPIC_ARN] variable, reachability of MySQL), the state part
    is the world (the [loans] and [users] tables, the queues, the SNS
    publish attempts, the log), and the exception part is a JS [throw].
    Each call to an external oracle ([Math.random], [sqs.sendMessage],
    [sqs.deleteMessage], [sns.publish]) reads the oracle at the current
    value of a tick counter and advances it, so that successive calls can
    have independent outcomes. *)

From Stdlib Require Import QArith String List.
From stdpp Require Import base gmap strings.
Import ListNotations.
Open Scope string_scope.

(** ** Data model *)

(** Values of the [status] column; the code only ever writes these. *)
Inductive status :=
| PENDING_VERIFICATION
| VERIFIED
| VERIFICATION_FAILED
| APPROVED
| REJECTED.

(** A row of the [loans] table ([id] is the key of the map).
    [loanAmount] is [None] when the column is [NULL]. *)
Record loan := mkLoan {
  userId : Z;
  loanAmount : option Q;
  propertyAddress : string;
  status_of : status
}.

(** A parsed SQS message body [{loanId, userId, action, timestamp}];
    a field absent from the JSON object is [None] ([undefined] in JS).
    The timestamp is not modelled. *)
Record envelope := mkEnvelope {
  env_loanId : option Z;
  env_userId : option Z;
  env_action : option string
}.

(** An SQS message as received: the raw body either parses to a value read
    through its fields ([Some]; a non-object value other than [null] has none
    of them), or makes [processMessage] throw before its first effect
    ([None]): [JSON.parse] fails, or the body is [null], whose destructuring
    throws.  Both end in the same [catch], which does not use the error. *)
Record sqs_message := mkMsg {
  ReceiptHandle : string;
  Body : option envelope
}.

(** The SNS message published on approval (timestamp omitted). *)
Record notification := mkNotification {
  n_loanId : option Z;
  n_userId : option Z;
  n_status : status;
  n_reason : string
}.

(** Log lines of the eligibility Lambda, one constructor per call site
    of [log.info], [log.warn] and [log.error]. *)
Inductive elog :=
| LTriggered
| LDbConnected
| LDbConnectFailed
| LProcessing (loanId : option Z) (action : option string)
| LLoanNotFound (loanId : option Z)
| LStatusUpdated (loanId : option Z) (st : status) (reason : string)
| LPublished (loanId : option Z)
| LPublishFailed (loanId : option Z)
| LUnknownAction (action : option string)
| LRecordError (msg : string)
| LLambdaError (msg : string)
| LDbClosed.

(** The world the three services act on. *)
Record world := mkWorld {
  loans : gmap Z loan;            (* the loans table *)
  users : gset Z;                 (* ids of the users table *)
  next_id : Z;                    (* AUTO_INCREMENT counter of loans *)
  verif_q : list envelope;        (* sent to doc-verification-queue *)
  elig_q : list envelope;         (* sent to eligibility-queue *)
  deleted : list string;          (* receipt handles deleted from doc-verification-queue *)
  sns_calls : list (notification * bool);  (* every sns.publish call, with its outcome *)
  logs : list elog;               (* eligibility Lambda log *)
  tick : nat                      (* oracle counter *)
}.

(** The environment: external outcomes, indexed by the tick counter. *)
Record env := mkEnv {
  random : nat -> Q;              (* Math.random(), in [0,1) *)
  sqs_ok : nat -> bool;           (* does this SQS call succeed? *)
  sns_ok : nat -> bool;           (* does this SNS publish succeed? *)
  LOAN_APPROVED_TOPIC_ARN : option string;
  db_up : bool                    (* can mysql.createConnection connect? *)
}.

(** ** The monad: reader [env], state [world], JS exceptions *)

Inductive result (A : Type) :=
| Ok (a : A)
| Throw (msg : string).
Arguments Ok {A} a.
Arguments Throw {A} msg.

Definition M (A : Type) := env -> world -> result A * world.

Definition ret {A} (a : A) : M A := fun _ w => (Ok a, w).
Definition throw {A} (msg : string) : M A := fun _ w => (Throw msg, w).
Definition bind {A B} (m : M A) (k : A -> M B) : M B :=
  fun e w => match m e w with
             | (Ok a, w') => k a e w'
             | (Throw s, w') => (Throw s, w')
             end.
(** [try { m } catch (err) { h(err) }] *)
Definition try_catch {A} (m : M A) (h : string -> M A) : M A :=
  fun e w => match m e w with
             | (Ok a, w') => (Ok a, w')
             | (Throw s, w') => h s e w'
             end.

Notation "'let!' x := m 'in' k" := (bind m (fun x => k))
  (at level 200, x name, m at level 100, k at level 200).

Definition get_env : M env := fun e w => (Ok e, w).
Definition get_world : M world := fun _ w => (Ok w, w).
Definition modify (f : world -> world) : M unit := fun _ w => (Ok tt, f w).

Definition set_loans (l : gmap Z loan) (w : world) : world :=
  {| loans := l; users := users w; next_id := next_id w; verif_q := verif_q w;
     elig_q := elig_q w; deleted := deleted w; sns_calls := sns_calls w;
     logs := logs w; tick := tick w |}.
Definition set_next_id (n : Z) (w : world) : world :=
  {| loans := loans w; users := users w; next_id := n; verif_q := verif_q w;
     elig_q := elig_q w; deleted := deleted w; sns_calls := sns_calls w;
     logs := logs w; tick := tick w |}.
Definition push_verif (m : envelope) (w : world) : world :=
  {| loans := loans w; users := users w; next_id := next_id w; verif_q := verif_q w ++ [m];
     elig_q := elig_q w; deleted := deleted w; sns_calls := sns_calls w;
     logs := logs w; tick := tick w |}.
Definition push_elig (m : envelope) (w : world) : world :=
  {| loans := loans w; users := users w; next_id := next_id w; verif_q := verif_q w;
     elig_q := elig_q w ++ [m]; deleted := deleted w; sns_calls := sns_calls w;
     logs := logs w; tick := tick w |}.
Definition push_deleted (h : string) (w : world) : world :=
  {| loans := loans w; users := users w; next_id := next_id w; verif_q := verif_q w;
     elig_q := elig_q w; deleted := deleted w ++ [h]; sns_calls := sns_calls w;
     logs := logs w; tick := tick w |}.
Definition push_sns (c : notification * bool) (w : world) : world :=
  {| loans := loans w; users := users w; next_id := next_id w; verif_q := verif_q w;
     elig_q := elig_q w; deleted := deleted w; sns_calls := sns_calls w ++ [c];
     logs := logs w; tick := tick w |}.
Definition push_log (l : elog) (w : world) : world :=
  {| loans := loans w; users := users w; next_id := next_id w; verif_q := verif_q w;
     elig_q := elig_q w; deleted := deleted w; sns_calls := sns_calls w;
     logs := logs w ++ [l]; tick := tick w |}.
Definition bump_tick (w : world) : world :=
  {| loans := loans w; users := users w; next_id := next_id w; verif_q := verif_q w;
     elig_q := elig_q w; deleted := deleted w; sns_calls := sns_calls w;
     logs := logs w; tick := S (tick w) |}.

Definition log (l : elog) : M unit := modify (push_log l).

(** Read an oracle at the current tick, then advance the tick. *)
Definition oracle {A} (f : env -> nat -> A) : M A :=
  fun e w => (Ok (f e (tick w)), bump_tick w).

Definition math_random : M Q := oracle random.

(** JS [<] on numbers. *)
Definition Qlt_bool (a b : Q) : bool := negb (Qle_bool b a).

(** [UPDATE loans SET status = ? WHERE id = ?]: an unconditional write;
    a missing row is left as it is (0 rows affected, no error), and an
    [undefined] id makes mysql2 reject the bind parameters. *)
Definition set_status (st : status) (l : loan) : loan :=
  {| userId := userId l; loanAmount := loanAmount l;
     propertyAddress := propertyAddress l; status_of := st |}.

Definition update_status (newStatus : status) (loanId : option Z) : M unit :=
  match loanId with
  | None => throw "Bind parameters must not contain undefined"
  | Some id => modify (fun w => set_loans (alter (set_status newStatus) id (loans w)) w)
  end.

(** [JSON.parse(message.Body)] *)
Definition parse_body (b : option envelope) : M envelope :=
  match b with
  | Some env => ret env
  | None => throw "Unexpected token in JSON"
  end.

(** [sqs.sendMessage(...).promise()] to the eligibility queue. *)
Definition send_eligibility (m : envelope) : M unit :=
  let! ok := oracle sqs_ok in
  if ok then modify (push_elig m) else throw "SQS sendMessage failed".

(** [sqs.sendMessage(...).promise()] to the doc-verification queue. *)
Definition send_verification (m : envelope) : M unit :=
  let! ok := oracle sqs_ok in
  if ok then modify (push_verif m) else throw "SQS sendMessage failed".

(** ** Document verification service *)
Module Verification.

(** [verifyDocuments]: [Math.random() < 0.9]. *)
Definition verifyDocuments (loanId : option Z) : M bool :=
  let! r := math_random in
  ret (Qlt_bool r (9 # 10)).

(** The value returned by [processMessage]: [{ id, success }]. *)
Record process_result := mkResult { id : string; success : bool }.

(** [processMessage] (index.js, lines 45-97). *)
Definition processMessage (message : sqs_message) : M process_result :=
  try_catch
    (let! body := parse_body (Body message) in
     let loanId := env_loanId body in
     let userId := env_userId body in
     let action := env_action body in
     if decide (action = Some "VERIFY_DOCUMENTS") then
       let! isVerified := verifyDocuments loanId in
       let newStatus := if isVerified then VERIFIED else VERIFICATION_FAILED in
       let! _ := update_status newStatus loanId in
       let! _ :=
         (if isVerified then
            try_catch
              (send_eligibility (mkEnvelope loanId userId (Some "CHECK_ELIGIBILITY")))
              (fun sqsError => throw sqsError)
          else ret tt) in
       ret (mkResult (ReceiptHandle message) true)
     else
       ret (mkResult (ReceiptHandle message) false))
    (fun _ => ret (mkResult (ReceiptHandle message) false)).

(** [sqs.deleteMessage(...)], its failure caught and logged. *)
Definition delete_message (h : string) : M unit :=
  try_catch
    (let! ok := oracle sqs_ok in
     if ok then modify (push_deleted h) else throw "SQS deleteMessage failed")
    (fun _ => ret tt).

(** The body of the [for (const message of data.Messages)] loop of
    [pollMessages] (lines 116-132). *)
Definition handleMessage (message : sqs_message) : M unit :=
  let! result := processMessage message in
  if success result then delete_message (id result) else ret tt.

(** One round of [pollMessages] on the batch returned by
    [sqs.receiveMessage]; the re-scheduling by [setTimeout] is the
    next round. *)
Fixpoint pollBatch (messages : list sqs_message) : M unit :=
  match messages with
  | [] => ret tt
  | m :: ms => let! _ := handleMessage m in pollBatch ms
  end.

End Verification.

(** ** Eligibility Lambda *)
Module Eligibility.

(** The value [JSON.parse(record.body)] returns: [null], or any other
    JSON value, read through its [loanId], [userId] and [action] fields (a
    number, string, boolean or array has none of them, which is the envelope
    with every field [None]).  An envelope is an object value. *)
Inductive body_value :=
| BNull
| BObject (b : envelope).

(** An SQS record of the Lambda event: its body parses ([Some]) or makes
    [JSON.parse] throw ([None]). *)
Record lambda_record := mkRecord { messageId : string; body : option body_value }.

(** [JSON.parse(record.body)] followed by the property reads of lines
    74-76: [body.loanId] on [null] throws a TypeError. *)
Definition parse_record_body (b : option body_value) : M envelope :=
  match b with
  | Some (BObject env) => ret env
  | Some BNull => throw "Cannot read properties of null (reading 'loanId')"
  | None => throw "Unexpected token in JSON"
  end.

(** The entries pushed to [processedRecords] and [failedRecords]. *)
Inductive rec_outcome :=
| Processed (recordId : string) (loanId : option Z) (st : status)
| Failed (recordId : string) (reason : string).

Definition is_processed (o : rec_outcome) : bool :=
  match o with Processed _ _ _ => true | Failed _ _ => false end.

Record eligibility := mkEligibility { eligible : bool; reason : string }.

(** [calculateEligibility] (index.js, lines 15-40). *)
Definition calculateEligibility (loanAmount : option Q) : M eligibility :=
  match loanAmount with
  | None => throw "Invalid loan amount"
  | Some a =>
      if Qle_bool a 0 then throw "Invalid loan amount" else
      let! r := math_random in
      let isEligible := Qlt_bool r (7 # 10) && Qlt_bool a 1000000 in
      let reason :=
        if isEligible then "Approved based on eligibility rules"
        else if Qle_bool 1000000 a then "Loan amount exceeds maximum threshold"
        else "Does not meet eligibility criteria" in
      ret (mkEligibility isEligible reason)
  end.

(** JS truthiness of the fields tested by [!loanId || !action]. *)
Definition truthy_id (x : option Z) : bool :=
  match x with Some n => negb (Z.eqb n 0) | None => false end.
Definition truthy_str (x : option string) : bool :=
  match x with Some s => negb (String.eqb s "") | None => false end.

(** [sns.publish(...).promise()]; every call is recorded with its outcome. *)
Definition sns_publish (n : notification) : M unit :=
  let! ok := oracle sns_ok in
  let! _ := modify (push_sns (n, ok)) in
  if ok then ret tt else throw "SNS publish failed".

(** [getDbConnection] *)
Definition getDbConnection : M unit :=
  let! e := get_env in
  if db_up e then log LDbConnected
  else let! _ := log LDbConnectFailed in throw "connect ECONNREFUSED".

(** The body of the [for (const record of event.Records)] loop
    (index.js, lines 72-142): the entry it pushes to [processedRecords]
    or [failedRecords]. *)
Definition processRecord (record : lambda_record) : M rec_outcome :=
  try_catch
    (let! b := parse_record_body (body record) in
     let! _ := log (LProcessing (env_loanId b) (env_action b)) in
     let loanId := env_loanId b in
     let userId := env_userId b in
     let action := env_action b in
     if negb (truthy_id loanId) || negb (truthy_str action) then
       throw "Missing required fields: loanId, action"
     else if decide (action = Some "CHECK_ELIGIBILITY") then
       let! w := get_world in
       match (match loanId with Some id => loans w !! id | None => None end) with
       | None =>
           let! _ := log (LLoanNotFound loanId) in
           ret (Failed (messageId record) "Loan not found")
       | Some l =>
           let! eligibilityResult := calculateEligibility (loanAmount l) in
           let newStatus := if eligible eligibilityResult then APPROVED else REJECTED in
           let! _ := update_status newStatus loanId in
           let! _ := log (LStatusUpdated loanId newStatus (reason eligibilityResult)) in
           let! e := get_env in
           let! _ :=
             (if eligible eligibilityResult && truthy_str (LOAN_APPROVED_TOPIC_ARN e) then
                try_catch
                  (let! _ := sns_publish (mkNotification loanId userId APPROVED
                                            (reason eligibilityResult)) in
                   log (LPublished loanId))
                  (fun _ => log (LPublishFailed loanId))
              else ret tt) in
           ret (Processed (messageId record) loanId newStatus)
       end
     else
       let! _ := log (LUnknownAction action) in
       ret (Failed (messageId record) ("Unknown action: " ++
              match action with Some s => s | None => "undefined" end)))
    (fun msg =>
       let! _ := log (LRecordError msg) in
       ret (Failed (messageId record) msg)).

Fixpoint processRecords (records : list lambda_record) : M (list rec_outcome) :=
  match records with
  | [] => ret []
  | r :: rs =>
      let! o := processRecord r in
      let! os := processRecords rs in
      ret (o :: os)
  end.

Inductive lambda_body :=
| Completed (processed failed : list rec_outcome)
| ExecutionError (msg : string).

Record lambda_response := mkResponse { statusCode : Z; response_body : lambda_body }.

(** [exports.handler] (index.js, lines 60-176).  [connection.end()] is
    taken to succeed. *)
Definition handler (records : list lambda_record) : M lambda_response :=
  let! _ := log LTriggered in
  let! resp :=
    try_catch
      (let! _ := getDbConnection in
       let! outs := processRecords records in
       ret (mkResponse 200 (Completed (filter is_processed outs)
                                      (filter (fun o => negb (is_processed o)) outs))))
      (fun msg =>
         let! _ := log (LLambdaError msg) in
         ret (mkResponse 500 (ExecutionError msg))) in
  let! e := get_env in
  let! _ := (if db_up e then log LDbClosed else ret tt) in
  ret resp.

End Eligibility.

(** An envelope written where a record body is expected is the object
    value [BObject]; [Some e] is elaborated against its expected type so
    that the coercion also applies under [Some]. *)
Coercion Eligibility.BObject : envelope >-> Eligibility.body_value.
Arguments Some {A} & _.

(** ** Loan service: [POST /loans] *)
Module LoanService.

(** The request body before [validateRequest(createLoanSchema)]. *)
Record create_request := mkRequest {
  req_userId : option Z;
  req_loanAmount : option Q;
  req_propertyAddress : option string
}.

(** [createLoanSchema]: [userId] an integer, [loanAmount] positive,
    [propertyAddress] a (non-empty, as Joi requires) string, all required. *)
Definition createLoanSchema_ok (r : create_request) : bool :=
  match req_userId r, req_loanAmount r, req_propertyAddress r with
  | Some _, Some a, Some addr => Qlt_bool 0 a && negb (String.eqb addr "")
  | _, _, _ => false
  end.

Inductive http_body :=
| LoanCreated (loanId : Z) (st : status)
| HttpError (msg : string).

Record http_response := mkHttp { code : Z; http_body_of : http_body }.

(** [sendSQSMessage] rethrows after logging. *)
Definition sendSQSMessage (m : envelope) : M unit :=
  try_catch (send_verification m) (fun err => throw err).

(** [app.post('/loans', validateRequest(createLoanSchema), ...)]
    (part_000, lines 151-200).  The [db.query] calls are taken to succeed
    (the MySQL pool is reachable), so the [next(error)] path is not
    modelled. *)
Definition post_loans (req : create_request) : M http_response :=
  if negb (createLoanSchema_ok req) then ret (mkHttp 400 (HttpError "validation error")) else
  match req_userId req, req_loanAmount req, req_propertyAddress req with
  | Some uid, Some amount, Some addr =>
      let! w := get_world in
      if negb (bool_decide (uid ∈ users w)) then
        ret (mkHttp 404 (HttpError "User not found"))
      else
        let loanId := next_id w in
        let! _ := modify (fun w =>
                    set_next_id (Z.succ loanId)
                      (set_loans (<[loanId := mkLoan uid (Some amount) addr PENDING_VERIFICATION]>
                                    (loans w)) w)) in
        let! _ := try_catch
                    (sendSQSMessage (mkEnvelope (Some loanId) (Some uid) (Some "VERIFY_DOCUMENTS")))
                    (fun _ => ret tt) in
        ret (mkHttp 201 (LoanCreated loanId PENDING_VERIFICATION))
  | _, _, _ => ret (mkHttp 400 (HttpError "validation error"))
  end.

End LoanService.

(** ** Loan service: the [/loans/:id] routes *)
Module LoanRoutes.

(** The [:id] path parameter, as the route sees it: the empty string
    (rejected by [!id]), a string for which [isNaN(id)] holds, or a string
    that passes both tests.  The route passes that string itself to
    [WHERE id = ?], and MySQL compares a string with the integer [id] column
    as numbers, reading the string with its own conversion (the longest
    decimal prefix, 0 when there is none), not with JavaScript's [Number].
    So [PNumber q] carries the value [q] MySQL reads from the string:
    ["7"] and [" 7"] are [PNumber 7], ["1e2"] is [PNumber 100], and ["0x1"]
    and ["Infinity"], which [Number] reads as 1 and Infinity, are
    [PNumber 0]. *)
Inductive path_param :=
| PEmpty
| PNotNumber
| PNumber (q : Q).

(** The key of the row matched by [WHERE id = ?], if any: the row with key
    [k] matches exactly when MySQL's value [q] equals [k]. *)
Definition key_of (q : Q) : option Z :=
  let q' := Qred q in
  if Pos.eqb (Qden q') 1 then Some (Qnum q') else None.

(** [!id || isNaN(id)] rejected with 400, else the matched key. *)
Definition valid_id (p : path_param) : option Q :=
  match p with
  | PNumber q => Some q
  | PEmpty | PNotNumber => None
  end.

Inductive route_body :=
| RLoan (id : Z) (l : loan)
| RMessage (msg : string)
| RError (msg : string).

Record route_response := mkRoute { rcode : Z; rbody : route_body }.

(** [SELECT ... FROM loans WHERE id = ?] *)
Definition select_loan (q : Q) (w : world) : option (Z * loan) :=
  match key_of q with
  | Some k => match loans w !! k with Some l => Some (k, l) | None => None end
  | None => None
  end.

(** [app.get('/loans/:id')] (part_000, lines 124-148). *)
Definition get_loan (p : path_param) : M route_response :=
  match valid_id p with
  | None => ret (mkRoute 400 (RError "Invalid loan ID"))
  | Some q =>
      let! w := get_world in
      match select_loan q w with
      | None => ret (mkRoute 404 (RError "Loan not found"))
      | Some (k, l) => ret (mkRoute 200 (RLoan k l))
      end
  end.

(** The request body of [PUT /loans/:id]. *)
Record update_request := mkUpdate {
  upd_loanAmount : option Q;
  upd_propertyAddress : option string
}.

(** [updateLoanSchema]: both fields optional, [loanAmount] positive,
    [propertyAddress] a non-empty string. *)
Definition updateLoanSchema_ok (r : update_request) : bool :=
  match upd_loanAmount r with Some a => Qlt_bool 0 a | None => true end &&
  match upd_propertyAddress r with Some s => negb (String.eqb s "") | None => true end.

(** [UPDATE loans SET loanAmount = ?, propertyAddress = ? WHERE id = ?],
    with only the fields present in the request. *)
Definition update_fields (r : update_request) (l : loan) : loan :=
  {| userId := userId l;
     loanAmount := match upd_loanAmount r with Some a => Some a | None => loanAmount l end;
     propertyAddress := match upd_propertyAddress r with
                        | Some s => s | None => propertyAddress l end;
     status_of := status_of l |}.

(** [app.put('/loans/:id', validateRequest(updateLoanSchema), ...)]
    (part_000, lines 203-246). *)
Definition put_loan (p : path_param) (r : update_request) : M route_response :=
  if negb (updateLoanSchema_ok r) then ret (mkRoute 400 (RError "validation error")) else
  match valid_id p with
  | None => ret (mkRoute 400 (RError "Invalid loan ID"))
  | Some q =>
      match upd_loanAmount r, upd_propertyAddress r with
      | None, None => ret (mkRoute 400 (RError "No fields to update"))
      | _, _ =>
          let! _ := modify (fun w =>
                      match key_of q with
                      | Some k => set_loans (alter (update_fields r) k (loans w)) w
                      | None => w
                      end) in
          ret (mkRoute 200 (RMessage "Loan updated successfully"))
      end
  end.

(** [app.delete('/loans/:id')] (part_000, lines 249-274). *)
Definition delete_loan (p : path_param) : M route_response :=
  match valid_id p with
  | None => ret (mkRoute 400 (RError "Invalid loan ID"))
  | Some q =>
      let! w := get_world in
      match select_loan q w with
      | None => ret (mkRoute 404 (RError "Loan not found"))
      | Some (k, _) =>
          let! _ := modify (fun w => set_loans (delete k (loans w)) w) in
          ret (mkRoute 200 (RMessage "Loan deleted successfully"))
      end
  end.

End LoanRoutes.

(** ** Concrete fixtures *)

Definition empty_world : world := mkWorld ∅ ∅ 1 [] [] [] [] [] 0.

Definition with_loans (m : gmap Z loan) : world := set_loans m empty_world.

(** Every oracle succeeds, [Math.random()] always returns 0, the topic is set. *)
Definition ok_env : env :=
  mkEnv (fun _ => 0%Q) (fun _ => true) (fun _ => true)
        (Some "arn:aws:sns:us-east-1:000000000000:loan-approved-topic") true.

Definition sample_loan (st : status) : loan := mkLoan 7 (Some 250000%Q) "1 Main St" st.

Definition verify_msg (id : Z) : sqs_message :=
  mkMsg "rh-1" (Some (mkEnvelope (Some id) (Some 7%Z) (Some "VERIFY_DOCUMENTS"))).

(** The message [processMessage] sends to the eligibility queue. *)
Definition check_eligibility_msg (id : Z) (uid : option Z) : envelope :=
  mkEnvelope (Some id) uid (Some "CHECK_ELIGIBILITY").

(** [ok_env] with every [sns.publish] failing. *)
Definition sns_down_env : env :=
  mkEnv (fun _ => 0%Q) (fun _ => true) (fun _ => false)
        (Some "arn:aws:sns:us-east-1:000000000000:loan-approved-topic") true.

(** [ok_env] with every SQS call failing. *)
Definition sqs_down_env : env :=
  mkEnv (fun _ => 0%Q) (fun _ => false) (fun _ => true)
        (Some "arn:aws:sns:us-east-1:000000000000:loan-approved-topic") true.

(** [ok_env] with [Math.random()] always returning 0.9. *)
Definition high_draw_env : env :=
  mkEnv (fun _ => 9 # 10) (fun _ => true) (fun _ => true)
        (Some "arn:aws:sns:us-east-1:000000000000:loan-approved-topic") true.

(** [ok_env] without [LOAN_APPROVED_TOPIC_ARN]. *)
Definition no_topic_env : env :=
  mkEnv (fun _ => 0%Q) (fun _ => true) (fun _ => true) None true.

Definition check_rec (id : Z) : Eligibility.lambda_record :=
  Eligibility.mkRecord "m-1" (Some (mkEnvelope (Some id) (Some 7%Z) (Some "CHECK_ELIGIBILITY"))).

(** The [recordId] of a [processedRecords] or [failedRecords] entry. *)
Definition outcome_id (o : Eligibility.rec_outcome) : string :=
  match o with
  | Eligibility.Processed rid _ _ => rid
  | Eligibility.Failed rid _ => rid
  end.

(** [m'] differs from [m] only by status writes allowed by [P]: every
    row keeps its key and its other columns, and a row whose status
    changed was given a status [st] with [P id st]. *)
Definition status_only_writes (P : Z -> status -> Prop) (m m' : gmap Z loan) : Prop :=
  forall j, m' !! j = m !! j \/
            exists l st, m !! j = Some l /\ m' !! j = Some (set_status st l) /\ P j st.

(** The entry pushed for a record: its [messageId], and for a processed
    record a CHECK_ELIGIBILITY object body with a [loanId] and a decision. *)
Definition record_outcome_ok (r : Eligibility.lambda_record) (o : Eligibility.rec_outcome) : Prop :=
  match o with
  | Eligibility.Processed rid lid st =>
      rid = Eligibility.messageId r /\
      exists (b : envelope) id, Eligibility.body r = Some (Eligibility.BObject b) /\
        env_loanId b = Some id /\ env_action b = Some "CHECK_ELIGIBILITY" /\
        lid = Some id /\ (st = APPROVED \/ st = REJECTED)
  | Eligibility.Failed rid _ => rid = Eligibility.messageId r
  end.

(** A status write the eligibility Lambda may do for the event [rs]. *)
Definition elig_write (rs : list Eligibility.lambda_record) (j : Z) (st : status) : Prop :=
  (st = APPROVED \/ st = REJECTED) /\
  exists r (b : envelope), In r rs /\ Eligibility.body r = Some (Eligibility.BObject b) /\
    env_loanId b = Some j /\ env_action b = Some "CHECK_ELIGIBILITY".

(** A publish the eligibility Lambda may do for the event [rs]. *)
Definition approved_publish (rs : list Eligibility.lambda_record) (p : notification * bool) : Prop :=
  n_status (fst p) = APPROVED /\
  exists r (b : envelope) j, In r rs /\ Eligibility.body r = Some (Eligibility.BObject b) /\
    env_loanId b = Some j /\ env_action b = Some "CHECK_ELIGIBILITY" /\ n_loanId (fst p) = Some j.

(** [ok_env] with the database unreachable. *)
Definition db_down_env : env :=
  mkEnv (fun _ => 0%Q) (fun _ => true) (fun _ => true)
        (Some "arn:aws:sns:us-east-1:000000000000:loan-approved-topic") false.

Ltac pick_status_write st :=
  right; eexists; eexists; exists st; split; [reflexivity|]; split; [reflexivity|];
  split; [auto|reflexivity].

Ltac pick_effect :=
  split; [|split];
  first [ left; reflexivity
        | right; reflexivity
        | solve [pick_status_write VERIFIED]
        | solve [pick_status_write VERIFICATION_FAILED]
        | right; eexists; split; [reflexivity|]; split; reflexivity ].

Example verify_sample :
  Verification.pollBatch [verify_msg 1] ok_env
    (with_loans {[1%Z := sample_loan PENDING_VERIFICATION]}) =
  (Ok tt, mkWorld {[1%Z := sample_loan VERIFIED]} ∅ 1 []
            [mkEnvelope (Some 1%Z) (Some 7%Z) (Some "CHECK_ELIGIBILITY")]
            ["rh-1"] [] [] 3).
Proof. reflexivity. Qed.

Example eligibility_sample :
  fst (Eligibility.handler [Eligibility.mkRecord "m-1"
         (Some (mkEnvelope (Some 1%Z) (Some 7%Z) (Some "CHECK_ELIGIBILITY")))] ok_env
         (with_loans {[1%Z := sample_loan VERIFIED]})) =
  Ok (Eligibility.mkResponse 200
        (Eligibility.Completed [Eligibility.Processed "m-1" (Some 1%Z) APPROVED] [])).
Proof. reflexivity. Qed.

(** ** Verification worker: how one message runs *)

Section VerificationRun.
Import Verification.

Lemma processMessage_verify (e : env) (w : world) (m : sqs_message) (id : Z) (uid : option Z) :
  Body m = Some (mkEnvelope (Some id) uid (Some "VERIFY_DOCUMENTS")) ->
  processMessage m e w =
  (let pass := Qlt_bool (random e (tick w)) (9 # 10) in
   let w1 := set_loans (alter (set_status (if pass then VERIFIED else VERIFICATION_FAILED)) id
                              (loans w)) (bump_tick w) in
   if pass then
     if sqs_ok e (S (tick w))
     then (Ok (mkResult (ReceiptHandle m) true),
           push_elig (check_eligibility_msg id uid) (bump_tick w1))
     else (Ok (mkResult (ReceiptHandle m) false), bump_tick w1)
   else (Ok (mkResult (ReceiptHandle m) true), w1)).
Proof.
  intros Hb. unfold processMessage, try_catch, bind, parse_body. rewrite Hb. cbn.
  rewrite decide_True by reflexivity. cbn.
  destruct (Qlt_bool (random e (tick w)) (9 # 10)); cbn; [|reflexivity].
  destruct (sqs_ok e (S (tick w))); reflexivity.
Qed.

Lemma processMessage_other_action (e : env) (w : world) (m : sqs_message) (b : envelope) :
  Body m = Some b -> env_action b <> Some "VERIFY_DOCUMENTS" ->
  processMessage m e w = (Ok (mkResult (ReceiptHandle m) false), w).
Proof.
  intros Hb Ha. unfold processMessage, try_catch, bind, parse_body. rewrite Hb. cbn.
  rewrite decide_False by exact Ha. reflexivity.
Qed.

Lemma processMessage_elig_bound (e : env) (w : world) (m : sqs_message) :
  length (elig_q (snd (processMessage m e w))) <= S (length (elig_q w)).
Proof.
  unfold processMessage, try_catch, bind, parse_body.
  destruct (Body m) as [b|]; cbn; [|lia].
  destruct (decide _); cbn; [|lia].
  destruct (env_loanId b); cbn; [|lia].
  destruct (Qlt_bool _ _); cbn; [|lia].
  destruct (sqs_ok _ _); cbn; rewrite ?length_app; cbn; lia.
Qed.

Lemma delete_message_elig (e : env) (w : world) (h : string) :
  elig_q (snd (delete_message h e w)) = elig_q w.
Proof.
  unfold delete_message, try_catch, bind, oracle. cbn.
  destruct (sqs_ok e (tick w)); reflexivity.
Qed.

Lemma handleMessage_elig_bound (e : env) (w : world) (m : sqs_message) :
  length (elig_q (snd (handleMessage m e w))) <= S (length (elig_q w)).
Proof.
  pose proof (processMessage_elig_bound e w m) as Hb.
  unfold handleMessage, bind.
  destruct (processMessage m e w) as [[r|s] w'] eqn:E; cbn in *; [|lia].
  destruct (success r); [rewrite delete_message_elig|]; cbn; lia.
Qed.

End VerificationRun.

(** ** Eligibility Lambda: how one record runs *)

Section EligibilityRun.
Import Eligibility.

Lemma try_catch_total {A} (m : M A) (h : string -> M A) (e : env) (w : world) :
  (forall s w0, exists a w', h s e w0 = (Ok a, w')) ->
  exists a w', try_catch m h e w = (Ok a, w').
Proof.
  intros Hh. unfold try_catch.
  destruct (m e w) as [[a|s] w']; eauto.
Qed.

(** [processRecord] never throws: its [catch] turns every error into a
    [failedRecords] entry. *)
Lemma processRecord_total (r : lambda_record) (e : env) (w : world) :
  exists o w', processRecord r e w = (Ok o, w').
Proof.
  unfold processRecord. apply try_catch_total.
  intros s w0. unfold bind, log, modify, ret. cbn. eauto.
Qed.

Lemma processRecords_total (rs : list lambda_record) (e : env) (w : world) :
  exists os w', processRecords rs e w = (Ok os, w').
Proof.
  revert w. induction rs as [|r rs IH]; intros w; cbn; [eauto|].
  unfold bind at 1.
  destruct (processRecord_total r e w) as (o & w1 & ->).
  unfold bind. destruct (IH w1) as (os & w2 & ->). cbn. eauto.
Qed.

(** With the database reachable the handler always answers 200. *)
Lemma handler_200 (rs : list lambda_record) (e : env) (w : world) :
  db_up e = true ->
  exists p f w', handler rs e w = (Ok (mkResponse 200 (Completed p f)), w').
Proof.
  intros Hup. unfold handler, getDbConnection, try_catch, bind, get_env, log, modify, ret.
  cbn. rewrite Hup. cbn.
  destruct (processRecords_total rs e
              (push_log LDbConnected (push_log LTriggered w))) as (os & w1 & ->).
  cbn. eauto.
Qed.

(** The handler on a one-record event, from the run of that record. *)
Lemma handler_single (r : lambda_record) (e : env) (w w' : world) (o : rec_outcome) :
  db_up e = true ->
  processRecord r e (push_log LDbConnected (push_log LTriggered w)) = (Ok o, w') ->
  handler [r] e w =
  (Ok (mkResponse 200 (Completed (filter is_processed [o])
                                 (filter (fun o => negb (is_processed o)) [o]))),
   push_log LDbClosed w').
Proof.
  intros Hup Hr. unfold handler, getDbConnection, try_catch, bind, get_env, log, modify, ret.
  cbn. rewrite Hup. cbn. unfold bind, ret. rewrite Hr. cbn. reflexivity.
Qed.

(** A [CHECK_ELIGIBILITY] record of an existing loan with a positive amount. *)
Lemma processRecord_check (e : env) (w : world) (r : lambda_record) (id : Z)
  (uid : option Z) (l : loan) (a : Q) :
  body r = Some (mkEnvelope (Some id) uid (Some "CHECK_ELIGIBILITY")) ->
  id <> 0%Z -> loans w !! id = Some l -> loanAmount l = Some a -> Qlt_bool 0 a = true ->
  processRecord r e w =
  (let ok := Qlt_bool (random e (tick w)) (7 # 10) && Qlt_bool a 1000000 in
   let st := if ok then APPROVED else REJECTED in
   let rsn := if ok then "Approved based on eligibility rules"
              else if Qle_bool 1000000 a then "Loan amount exceeds maximum threshold"
              else "Does not meet eligibility criteria" in
   let w2 := push_log (LStatusUpdated (Some id) st rsn)
               (set_loans (alter (set_status st) id (loans w))
                  (bump_tick (push_log (LProcessing (Some id) (Some "CHECK_ELIGIBILITY")) w))) in
   let n := mkNotification (Some id) uid APPROVED rsn in
   (Ok (Processed (messageId r) (Some id) st),
    if ok && truthy_str (LOAN_APPROVED_TOPIC_ARN e) then
      if sns_ok e (S (tick w))
      then push_log (LPublished (Some id)) (push_sns (n, true) (bump_tick w2))
      else push_log (LPublishFailed (Some id)) (push_sns (n, false) (bump_tick w2))
    else w2)).
Proof.
  intros Hb Hid Hl Ha Hpos.
  apply Z.eqb_neq in Hid.
  assert (Hle : Qle_bool a 0 = false).
  { unfold Qlt_bool in Hpos. destruct (Qle_bool a 0); [discriminate|reflexivity]. }
  unfold processRecord, try_catch, bind, parse_body. rewrite Hb. cbn.
  rewrite Hid. cbn. rewrite decide_True by reflexivity. cbn. rewrite Hl.
  unfold calculateEligibility. rewrite Ha, Hle. cbn.
  destruct (Qlt_bool (random e (tick w)) (7 # 10)), (Qlt_bool a 1000000); cbn;
    try reflexivity;
    destruct (truthy_str (LOAN_APPROVED_TOPIC_ARN e)); cbn; try reflexivity;
    destruct (sns_ok e (S (tick w))); reflexivity.
Qed.

End EligibilityRun.

(** ** Verification worker, all oracles succeeding *)

Lemma handleMessage_all_ok (e : env) (w : world) (m : sqs_message) (id : Z) (uid : option Z) :
  (forall n, Qlt_bool (random e n) (9 # 10) = true) ->
  (forall n, sqs_ok e n = true) ->
  Body m = Some (mkEnvelope (Some id) uid (Some "VERIFY_DOCUMENTS")) ->
  Verification.handleMessage m e w =
  (Ok tt, push_deleted (ReceiptHandle m)
            (bump_tick (push_elig (check_eligibility_msg id uid)
               (bump_tick (set_loans (alter (set_status VERIFIED) id (loans w))
                                     (bump_tick w)))))).
Proof.
  intros Hpass Hok Hb. unfold Verification.handleMessage, bind.
  rewrite (processMessage_verify e w m id uid Hb). rewrite Hpass, Hok. cbn.
  unfold Verification.delete_message, try_catch, bind, oracle. cbn. rewrite Hok.
  reflexivity.
Qed.

Lemma alter_status_lookup (m : gmap Z loan) (id : Z) (l : loan) (st : status) :
  m !! id = Some l -> alter (set_status st) id m !! id = Some (set_status st l).
Proof. intros H. rewrite lookup_alter_eq, H. reflexivity. Qed.

Lemma set_status_twice (l : loan) (s1 s2 : status) :
  set_status s2 (set_status s1 l) = set_status s2 l.
Proof. reflexivity. Qed.

Lemma Qlt_bool_false_iff (a b : Q) : Qlt_bool a b = false <-> Qle_bool b a = true.
Proof. unfold Qlt_bool. destruct (Qle_bool b a); split; cbn; congruence. Qed.

Lemma ceiling_positive (a : Q) : Qle_bool 1000000 a = true -> Qle_bool a 0 = false.
Proof.
  intros H. apply Qle_bool_iff in H.
  destruct (Qle_bool a 0) eqn:E; [|reflexivity].
  apply Qle_bool_iff in E.
  assert (Hc : (1000000 <= 0)%Q) by (eapply Qle_trans; eassumption).
  apply Qle_bool_iff in Hc. discriminate Hc.
Qed.

(** ** Claims *)

(** C1 (corrected), counterexample: a VERIFY_DOCUMENTS message for a loan
    that is already APPROVED sets it back to VERIFIED, and a
    CHECK_ELIGIBILITY record for a loan still PENDING_VERIFICATION sets it
    to APPROVED: neither write is conditional on the current status. *)
Lemma C1_counterexample :
  loans (with_loans {[1%Z := sample_loan APPROVED]}) !! 1%Z = Some (sample_loan APPROVED) /\
  loans (snd (Verification.processMessage (verify_msg 1) ok_env
                (with_loans {[1%Z := sample_loan APPROVED]}))) !! 1%Z
    = Some (sample_loan VERIFIED) /\
  loans (snd (Eligibility.processRecord
                (Eligibility.mkRecord "m-1"
                   (Some (mkEnvelope (Some 1%Z) (Some 7%Z) (Some "CHECK_ELIGIBILITY"))))
                ok_env (with_loans {[1%Z := sample_loan PENDING_VERIFICATION]}))) !! 1%Z
    = Some (sample_loan APPROVED).
Proof. repeat split; reflexivity. Qed.

(** C1 (corrected): neither worker looks at the current status.  For an
    existing loan in any status, the Verification Worker writes VERIFIED or
    VERIFICATION_FAILED according to its draw, and the Eligibility Worker
    (for a positive amount) writes APPROVED or REJECTED according to its
    draw and the amount. *)
Theorem C1_unconditional_status_write (e : env) (w : world) (id : Z) (l : loan) :
  loans w !! id = Some l ->
  (forall (m : sqs_message) (uid : option Z),
     Body m = Some (mkEnvelope (Some id) uid (Some "VERIFY_DOCUMENTS")) ->
     loans (snd (Verification.processMessage m e w)) !! id =
     Some (set_status (if Qlt_bool (random e (tick w)) (9 # 10)
                       then VERIFIED else VERIFICATION_FAILED) l)) /\
  (forall (r : Eligibility.lambda_record) (uid : option Z) (a : Q),
     Eligibility.body r = Some (mkEnvelope (Some id) uid (Some "CHECK_ELIGIBILITY")) ->
     id <> 0%Z -> loanAmount l = Some a -> Qlt_bool 0 a = true ->
     loans (snd (Eligibility.processRecord r e w)) !! id =
     Some (set_status (if Qlt_bool (random e (tick w)) (7 # 10) && Qlt_bool a 1000000
                       then APPROVED else REJECTED) l)).
Proof.
  intros Hl. split.
  - intros m uid Hb. rewrite (processMessage_verify e w m id uid Hb).
    destruct (Qlt_bool (random e (tick w)) (9 # 10)); cbn;
      [destruct (sqs_ok e (S (tick w))); cbn|];
      apply alter_status_lookup; exact Hl.
  - intros r uid a Hb Hid Ha Hpos.
    rewrite (processRecord_check e w r id uid l a Hb Hid Hl Ha Hpos). cbv zeta.
    destruct (Qlt_bool (random e (tick w)) (7 # 10) && Qlt_bool a 1000000); cbn;
      [destruct (Eligibility.truthy_str (LOAN_APPROVED_TOPIC_ARN e)); cbn;
       [destruct (sns_ok e (S (tick w))); cbn|]|];
      apply alter_status_lookup; exact Hl.
Qed.

Lemma C1_unconditional_status_write_witness :
  loans (with_loans {[1%Z := sample_loan APPROVED]}) !! 1%Z = Some (sample_loan APPROVED) /\
  ((forall (m : sqs_message) (uid : option Z),
     Body m = Some (mkEnvelope (Some 1%Z) uid (Some "VERIFY_DOCUMENTS")) ->
     loans (snd (Verification.processMessage m ok_env (with_loans {[1%Z := sample_loan APPROVED]})))
       !! 1%Z =
     Some (set_status (if Qlt_bool (random ok_env 0) (9 # 10)
                       then VERIFIED else VERIFICATION_FAILED) (sample_loan APPROVED))) /\
  (forall (r : Eligibility.lambda_record) (uid : option Z) (a : Q),
     Eligibility.body r = Some (mkEnvelope (Some 1%Z) uid (Some "CHECK_ELIGIBILITY")) ->
     1%Z <> 0%Z -> loanAmount (sample_loan APPROVED) = Some a -> Qlt_bool 0 a = true ->
     loans (snd (Eligibility.processRecord r ok_env (with_loans {[1%Z := sample_loan APPROVED]})))
       !! 1%Z =
     Some (set_status (if Qlt_bool (random ok_env 0) (7 # 10) && Qlt_bool a 1000000
                       then APPROVED else REJECTED) (sample_loan APPROVED)))).
Proof.
  split; [reflexivity|].
  apply (C1_unconditional_status_write ok_env (with_loans {[1%Z := sample_loan APPROVED]})
           1%Z (sample_loan APPROVED)).
  reflexivity.
Defined.

(** C2 (corrected), counterexample: the same VERIFY_DOCUMENTS message
    delivered twice, with every oracle succeeding, enqueues two
    CHECK_ELIGIBILITY messages. *)
Lemma C2_counterexample :
  elig_q (snd (Verification.pollBatch [verify_msg 1; verify_msg 1] ok_env
                 (with_loans {[1%Z := sample_loan PENDING_VERIFICATION]}))) =
  [check_eligibility_msg 1 (Some 7%Z); check_eligibility_msg 1 (Some 7%Z)].
Proof. reflexivity. Qed.

(** C2 (corrected): a second delivery of the same VERIFY_DOCUMENTS message
    re-runs the whole step.  Two deliveries enqueue at most two
    CHECK_ELIGIBILITY messages, and exactly two (the loan left VERIFIED and
    the message deleted twice) when every verification passes and every SQS
    call succeeds. *)
Theorem C2_redelivery_reruns (e : env) (w : world) (m : sqs_message) (id : Z)
  (uid : option Z) (l : loan) :
  Body m = Some (mkEnvelope (Some id) uid (Some "VERIFY_DOCUMENTS")) ->
  loans w !! id = Some l ->
  length (elig_q (snd (Verification.pollBatch [m; m] e w))) <= length (elig_q w) + 2 /\
  ((forall n, Qlt_bool (random e n) (9 # 10) = true) ->
   (forall n, sqs_ok e n = true) ->
   elig_q (snd (Verification.pollBatch [m; m] e w)) =
     (elig_q w ++ [check_eligibility_msg id uid; check_eligibility_msg id uid])%list /\
   deleted (snd (Verification.pollBatch [m; m] e w)) =
     (deleted w ++ [ReceiptHandle m; ReceiptHandle m])%list /\
   loans (snd (Verification.pollBatch [m; m] e w)) !! id = Some (set_status VERIFIED l)).
Proof.
  intros Hb Hl. split.
  - unfold Verification.pollBatch, bind, ret.
    pose proof (handleMessage_elig_bound e w m) as H1.
    destruct (Verification.handleMessage m e w) as [[[]|s] w1]; cbn in *; [|lia].
    pose proof (handleMessage_elig_bound e w1 m) as H2.
    destruct (Verification.handleMessage m e w1) as [[[]|s] w2]; cbn in *; lia.
  - intros Hpass Hok. unfold Verification.pollBatch, bind, ret.
    rewrite (handleMessage_all_ok e w m id uid Hpass Hok Hb).
    rewrite (handleMessage_all_ok e _ m id uid Hpass Hok Hb). cbn.
    rewrite <- !app_assoc. cbn. split; [reflexivity|]. split; [reflexivity|].
    rewrite lookup_alter_eq. rewrite (alter_status_lookup _ _ l _ Hl). reflexivity.
Qed.

Lemma C2_redelivery_reruns_witness :
  Body (verify_msg 1) = Some (mkEnvelope (Some 1%Z) (Some 7%Z) (Some "VERIFY_DOCUMENTS")) /\
  loans (with_loans {[1%Z := sample_loan PENDING_VERIFICATION]}) !! 1%Z
    = Some (sample_loan PENDING_VERIFICATION) /\
  (length (elig_q (snd (Verification.pollBatch [verify_msg 1; verify_msg 1] ok_env
              (with_loans {[1%Z := sample_loan PENDING_VERIFICATION]}))))
     <= length (elig_q (with_loans {[1%Z := sample_loan PENDING_VERIFICATION]})) + 2 /\
   ((forall n, Qlt_bool (random ok_env n) (9 # 10) = true) ->
    (forall n, sqs_ok ok_env n = true) ->
    elig_q (snd (Verification.pollBatch [verify_msg 1; verify_msg 1] ok_env
              (with_loans {[1%Z := sample_loan PENDING_VERIFICATION]}))) =
      (elig_q (with_loans {[1%Z := sample_loan PENDING_VERIFICATION]}) ++
      [check_eligibility_msg 1 (Some 7%Z); check_eligibility_msg 1 (Some 7%Z)])%list /\
    deleted (snd (Verification.pollBatch [verify_msg 1; verify_msg 1] ok_env
              (with_loans {[1%Z := sample_loan PENDING_VERIFICATION]}))) =
      (deleted (with_loans {[1%Z := sample_loan PENDING_VERIFICATION]}) ++
      [ReceiptHandle (verify_msg 1); ReceiptHandle (verify_msg 1)])%list /\
    loans (snd (Verification.pollBatch [verify_msg 1; verify_msg 1] ok_env
              (with_loans {[1%Z := sample_loan PENDING_VERIFICATION]}))) !! 1%Z
      = Some (set_status VERIFIED (sample_loan PENDING_VERIFICATION)))).
Proof.
  split; [reflexivity|]. split; [reflexivity|].
  apply C2_redelivery_reruns; reflexivity.
Defined.

(** C3: for a CHECK_ELIGIBILITY record that the policy approves, with the
    topic configured and [sns.publish] failing, the loan is APPROVED in the
    store, the failed publish is only recorded and logged, the record is
    counted in [processedRecords], and the handler still answers 200 (so
    the Lambda runtime deletes the message). *)
Theorem C3_publish_failure_is_best_effort (e : env) (w : world)
  (r : Eligibility.lambda_record) (id : Z) (uid : option Z) (l : loan) (a : Q) :
  Eligibility.body r = Some (mkEnvelope (Some id) uid (Some "CHECK_ELIGIBILITY")) ->
  id <> 0%Z -> loans w !! id = Some l -> loanAmount l = Some a -> Qlt_bool 0 a = true ->
  Qlt_bool a 1000000 = true ->
  Qlt_bool (random e (tick w)) (7 # 10) = true ->
  Eligibility.truthy_str (LOAN_APPROVED_TOPIC_ARN e) = true ->
  sns_ok e (S (tick w)) = false ->
  db_up e = true ->
  fst (Eligibility.processRecord r e w) =
    Ok (Eligibility.Processed (Eligibility.messageId r) (Some id) APPROVED) /\
  loans (snd (Eligibility.processRecord r e w)) !! id = Some (set_status APPROVED l) /\
  (exists n, sns_calls (snd (Eligibility.processRecord r e w)) = (sns_calls w ++ [(n, false)])%list) /\
  fst (Eligibility.handler [r] e w) =
    Ok (Eligibility.mkResponse 200
          (Eligibility.Completed [Eligibility.Processed (Eligibility.messageId r) (Some id) APPROVED] [])).
Proof.
  intros Hb Hid Hl Ha Hpos Hmax Hr Ht Hs Hup.
  pose proof (processRecord_check e w r id uid l a Hb Hid Hl Ha Hpos) as Hrun.
  cbv zeta in Hrun. rewrite Hr, Hmax, Ht, Hs in Hrun. cbn in Hrun.
  split; [rewrite Hrun; reflexivity|].
  split; [rewrite Hrun; apply alter_status_lookup; exact Hl|].
  split; [rewrite Hrun; eexists; reflexivity|].
  erewrite (handler_single r e w _
              (Eligibility.Processed (Eligibility.messageId r) (Some id) APPROVED) Hup);
    [reflexivity|].
  rewrite (processRecord_check e (push_log LDbConnected (push_log LTriggered w)) r id uid l a
             Hb Hid Hl Ha Hpos).
  cbv zeta. cbn. rewrite Hr, Hmax, Ht, Hs. reflexivity.
Qed.

Lemma C3_publish_failure_is_best_effort_witness :
  fst (Eligibility.processRecord (check_rec 1) sns_down_env
         (with_loans {[1%Z := sample_loan VERIFIED]})) =
    Ok (Eligibility.Processed "m-1" (Some 1%Z) APPROVED) /\
  loans (snd (Eligibility.processRecord (check_rec 1) sns_down_env
                (with_loans {[1%Z := sample_loan VERIFIED]}))) !! 1%Z
    = Some (set_status APPROVED (sample_loan VERIFIED)) /\
  (exists n, sns_calls (snd (Eligibility.processRecord (check_rec 1) sns_down_env
                (with_loans {[1%Z := sample_loan VERIFIED]}))) =
             (sns_calls (with_loans {[1%Z := sample_loan VERIFIED]}) ++ [(n, false)])%list) /\
  fst (Eligibility.handler [check_rec 1] sns_down_env (with_loans {[1%Z := sample_loan VERIFIED]})) =
    Ok (Eligibility.mkResponse 200
          (Eligibility.Completed [Eligibility.Processed "m-1" (Some 1%Z) APPROVED] [])).
Proof.
  apply (C3_publish_failure_is_best_effort sns_down_env (with_loans {[1%Z := sample_loan VERIFIED]})
           (check_rec 1) 1%Z (Some 7%Z) (sample_loan VERIFIED) 250000%Q);
    try reflexivity; discriminate.
Defined.

(** C4: at or above the 1,000,000 ceiling [calculateEligibility] answers
    not eligible with the reason 'Loan amount exceeds maximum threshold'
    whatever [Math.random()] returns, and the handler writes REJECTED; for
    a positive amount below the ceiling some draw approves and some draw
    rejects. *)
Theorem C4_ceiling_rejects (a : Q) :
  (Qle_bool 1000000 a = true ->
   (forall (e : env) (w : world),
      fst (Eligibility.calculateEligibility (Some a) e w) =
      Ok (Eligibility.mkEligibility false "Loan amount exceeds maximum threshold")) /\
   (forall (e : env) (w : world) (r : Eligibility.lambda_record) (id : Z) (uid : option Z) (l : loan),
      Eligibility.body r = Some (mkEnvelope (Some id) uid (Some "CHECK_ELIGIBILITY")) ->
      id <> 0%Z -> loans w !! id = Some l -> loanAmount l = Some a ->
      loans (snd (Eligibility.processRecord r e w)) !! id = Some (set_status REJECTED l))) /\
  (Qlt_bool 0 a = true -> Qlt_bool a 1000000 = true ->
   (exists (e : env) (w : world),
      fst (Eligibility.calculateEligibility (Some a) e w) =
      Ok (Eligibility.mkEligibility true "Approved based on eligibility rules")) /\
   (exists (e : env) (w : world),
      fst (Eligibility.calculateEligibility (Some a) e w) =
      Ok (Eligibility.mkEligibility false "Does not meet eligibility criteria"))).
Proof.
  split.
  - intros Hc.
    pose proof (ceiling_positive a Hc) as Hle.
    assert (Hpos : Qlt_bool 0 a = true) by (unfold Qlt_bool; rewrite Hle; reflexivity).
    assert (Hmax : Qlt_bool a 1000000 = false) by (apply Qlt_bool_false_iff; exact Hc).
    split.
    + intros e w. unfold Eligibility.calculateEligibility, bind. rewrite Hle. cbn.
      rewrite Hmax, andb_false_r, Hc. reflexivity.
    + intros e w r id uid l Hb Hid Hl Ha.
      rewrite (processRecord_check e w r id uid l a Hb Hid Hl Ha Hpos). cbv zeta.
      rewrite Hmax, andb_false_r. cbn. apply alter_status_lookup. exact Hl.
  - intros Hpos Hmax.
    assert (Hle : Qle_bool a 0 = false).
    { unfold Qlt_bool in Hpos. destruct (Qle_bool a 0); [discriminate|reflexivity]. }
    split.
    + exists ok_env, empty_world.
      unfold Eligibility.calculateEligibility, bind. rewrite Hle. cbn.
      rewrite Hmax. reflexivity.
    + exists high_draw_env, empty_world.
      unfold Eligibility.calculateEligibility, bind. rewrite Hle. cbn.
      unfold Qlt_bool in Hmax. apply negb_true_iff in Hmax. rewrite Hmax. reflexivity.
Qed.

Lemma C4_ceiling_rejects_witness :
  (forall (e : env) (w : world),
     fst (Eligibility.calculateEligibility (Some 1000000%Q) e w) =
     Ok (Eligibility.mkEligibility false "Loan amount exceeds maximum threshold")) /\
  (exists (e : env) (w : world),
     fst (Eligibility.calculateEligibility (Some 999999%Q) e w) =
     Ok (Eligibility.mkEligibility true "Approved based on eligibility rules")) /\
  (exists (e : env) (w : world),
     fst (Eligibility.calculateEligibility (Some 999999%Q) e w) =
     Ok (Eligibility.mkEligibility false "Does not meet eligibility criteria")).
Proof.
  split; [exact (proj1 (proj1 (C4_ceiling_rejects 1000000%Q) eq_refl))|].
  exact (proj2 (C4_ceiling_rejects 999999%Q) eq_refl eq_refl).
Defined.

(** C5: when verification passes and sending the CHECK_ELIGIBILITY
    message fails, [processMessage] reports failure and the message is not
    deleted from the verification queue (the broker redelivers it), and
    nothing is enqueued. *)
Theorem C5_enqueue_failure_keeps_message (e : env) (w : world) (m : sqs_message)
  (id : Z) (uid : option Z) :
  Body m = Some (mkEnvelope (Some id) uid (Some "VERIFY_DOCUMENTS")) ->
  Qlt_bool (random e (tick w)) (9 # 10) = true ->
  sqs_ok e (S (tick w)) = false ->
  fst (Verification.processMessage m e w) =
    Ok (Verification.mkResult (ReceiptHandle m) false) /\
  deleted (snd (Verification.handleMessage m e w)) = deleted w /\
  elig_q (snd (Verification.handleMessage m e w)) = elig_q w.
Proof.
  intros Hb Hpass Hfail.
  pose proof (processMessage_verify e w m id uid Hb) as Hrun.
  rewrite Hpass, Hfail in Hrun. cbn in Hrun.
  split; [rewrite Hrun; reflexivity|].
  unfold Verification.handleMessage, bind. rewrite Hrun. cbn.
  split; reflexivity.
Qed.

Lemma C5_enqueue_failure_keeps_message_witness :
  fst (Verification.processMessage (verify_msg 1) sqs_down_env
         (with_loans {[1%Z := sample_loan PENDING_VERIFICATION]})) =
    Ok (Verification.mkResult "rh-1" false) /\
  deleted (snd (Verification.handleMessage (verify_msg 1) sqs_down_env
                  (with_loans {[1%Z := sample_loan PENDING_VERIFICATION]}))) = [] /\
  elig_q (snd (Verification.handleMessage (verify_msg 1) sqs_down_env
                  (with_loans {[1%Z := sample_loan PENDING_VERIFICATION]}))) = [].
Proof.
  apply (C5_enqueue_failure_keeps_message sqs_down_env
           (with_loans {[1%Z := sample_loan PENDING_VERIFICATION]}) (verify_msg 1) 1%Z (Some 7%Z));
    reflexivity.
Defined.

(** C6 (code bug): the Verification Worker never reads the loan.  With no
    loan 42 in the store, a VERIFY_DOCUMENTS message for loan 42 leaves the
    table empty, yet enqueues a CHECK_ELIGIBILITY message for loan 42 and is
    deleted as a success. *)
Theorem C6_missing_loan_still_enqueued :
  Verification.pollBatch [verify_msg 42] ok_env empty_world =
  (Ok tt, mkWorld ∅ ∅ 1 [] [check_eligibility_msg 42 (Some 7%Z)] ["rh-1"] [] [] 3).
Proof. reflexivity. Qed.

(** C7 (corrected), counterexample: a CHECK_ELIGIBILITY message received
    by the Verification Worker is reported as a failure and is not deleted,
    so the broker redelivers it rather than dropping it. *)
Lemma C7_counterexample :
  fst (Verification.processMessage
         (mkMsg "rh-2" (Some (mkEnvelope (Some 1%Z) (Some 7%Z) (Some "CHECK_ELIGIBILITY"))))
         ok_env empty_world) = Ok (Verification.mkResult "rh-2" false) /\
  deleted (snd (Verification.pollBatch
         [mkMsg "rh-2" (Some (mkEnvelope (Some 1%Z) (Some 7%Z) (Some "CHECK_ELIGIBILITY")))]
         ok_env empty_world)) = [].
Proof. split; reflexivity. Qed.

(** C7 (corrected): a message whose action is not VERIFY_DOCUMENTS is
    answered [success: false]: nothing is written, enqueued or deleted (the
    world is unchanged), so the message stays on the queue and is
    redelivered. *)
Theorem C7_other_action_not_deleted (e : env) (w : world) (m : sqs_message) (b : envelope) :
  Body m = Some b -> env_action b <> Some "VERIFY_DOCUMENTS" ->
  Verification.processMessage m e w = (Ok (Verification.mkResult (ReceiptHandle m) false), w) /\
  Verification.handleMessage m e w = (Ok tt, w).
Proof.
  intros Hb Ha.
  pose proof (processMessage_other_action e w m b Hb Ha) as Hrun.
  split; [exact Hrun|].
  unfold Verification.handleMessage, bind. rewrite Hrun. reflexivity.
Qed.

Lemma C7_other_action_not_deleted_witness :
  Verification.handleMessage
    (mkMsg "rh-2" (Some (mkEnvelope (Some 1%Z) (Some 7%Z) (Some "CHECK_ELIGIBILITY"))))
    ok_env empty_world = (Ok tt, empty_world).
Proof.
  apply (C7_other_action_not_deleted ok_env empty_world
           (mkMsg "rh-2" (Some (mkEnvelope (Some 1%Z) (Some 7%Z) (Some "CHECK_ELIGIBILITY"))))
           (mkEnvelope (Some 1%Z) (Some 7%Z) (Some "CHECK_ELIGIBILITY"))); [reflexivity|].
  discriminate.
Defined.

(** C8: a CHECK_ELIGIBILITY record whose loan has no amount or a
    non-positive one makes [calculateEligibility] throw; the record's
    [catch] logs the error and lists it in [failedRecords], no status is
    written, and the handler still answers 200 (the message is dropped). *)
Theorem C8_invalid_amount_dropped (e : env) (w : world) (r : Eligibility.lambda_record)
  (id : Z) (uid : option Z) (l : loan) :
  Eligibility.body r = Some (mkEnvelope (Some id) uid (Some "CHECK_ELIGIBILITY")) ->
  id <> 0%Z -> loans w !! id = Some l ->
  (loanAmount l = None \/ exists a, loanAmount l = Some a /\ Qle_bool a 0 = true) ->
  db_up e = true ->
  Eligibility.processRecord r e w =
    (Ok (Eligibility.Failed (Eligibility.messageId r) "Invalid loan amount"),
     push_log (LRecordError "Invalid loan amount")
       (push_log (LProcessing (Some id) (Some "CHECK_ELIGIBILITY")) w)) /\
  loans (snd (Eligibility.processRecord r e w)) = loans w /\
  fst (Eligibility.handler [r] e w) =
    Ok (Eligibility.mkResponse 200
          (Eligibility.Completed [] [Eligibility.Failed (Eligibility.messageId r) "Invalid loan amount"])).
Proof.
  intros Hb Hid Hl Hinv Hup. apply Z.eqb_neq in Hid.
  assert (Hrun : forall w0, loans w0 !! id = Some l ->
            Eligibility.processRecord r e w0 =
            (Ok (Eligibility.Failed (Eligibility.messageId r) "Invalid loan amount"),
             push_log (LRecordError "Invalid loan amount")
               (push_log (LProcessing (Some id) (Some "CHECK_ELIGIBILITY")) w0))).
  { intros w0 Hl0.
    unfold Eligibility.processRecord, try_catch, bind, parse_body. rewrite Hb. cbn.
    rewrite Hid. cbn. rewrite decide_True by reflexivity. cbn. rewrite Hl0.
    unfold Eligibility.calculateEligibility.
    destruct Hinv as [Ha | (a & Ha & Hle)]; rewrite Ha; [reflexivity|].
    rewrite Hle. reflexivity. }
  split; [exact (Hrun w Hl)|].
  split; [rewrite (Hrun w Hl); reflexivity|].
  rewrite (handler_single r e w _ _ Hup
             (Hrun (push_log LDbConnected (push_log LTriggered w)) Hl)).
  reflexivity.
Qed.

Lemma C8_invalid_amount_dropped_witness :
  fst (Eligibility.handler [check_rec 1] ok_env
         (with_loans {[1%Z := mkLoan 7 (Some 0%Q) "1 Main St" VERIFIED]})) =
    Ok (Eligibility.mkResponse 200
          (Eligibility.Completed [] [Eligibility.Failed "m-1" "Invalid loan amount"])).
Proof.
  apply (C8_invalid_amount_dropped ok_env
           (with_loans {[1%Z := mkLoan 7 (Some 0%Q) "1 Main St" VERIFIED]}) (check_rec 1)
           1%Z (Some 7%Z) (mkLoan 7 (Some 0%Q) "1 Main St" VERIFIED));
    try reflexivity; [discriminate|].
  right. exists 0%Q. split; reflexivity.
Defined.

(** A body rejected by [createLoanSchema] gets 400 and changes nothing. *)
Lemma post_loans_validation (req : LoanService.create_request) (e : env) (w : world) :
  LoanService.createLoanSchema_ok req = false ->
  LoanService.post_loans req e w =
    (Ok (LoanService.mkHttp 400 (LoanService.HttpError "validation error")), w).
Proof. intros H. unfold LoanService.post_loans. rewrite H. reflexivity. Qed.

(** An unknown [userId] gets 404 and changes nothing. *)
Lemma post_loans_unknown_user (uid : Z) (amount : Q) (addr : string) (e : env) (w : world) :
  LoanService.createLoanSchema_ok (LoanService.mkRequest (Some uid) (Some amount) (Some addr)) = true ->
  uid ∉ users w ->
  LoanService.post_loans (LoanService.mkRequest (Some uid) (Some amount) (Some addr)) e w =
    (Ok (LoanService.mkHttp 404 (LoanService.HttpError "User not found")), w).
Proof.
  intros Hok Hu. unfold LoanService.post_loans. rewrite Hok. cbn.
  unfold bind, get_world. rewrite bool_decide_eq_false_2 by exact Hu. reflexivity.
Qed.

(** C9 (corrected), counterexample: a request that passes
    [createLoanSchema] but names a user absent from the users table is
    answered 404 and no loan is written. *)
Lemma C9_counterexample :
  LoanService.createLoanSchema_ok
    (LoanService.mkRequest (Some 7%Z) (Some 250000%Q) (Some "1 Main St")) = true /\
  LoanService.post_loans (LoanService.mkRequest (Some 7%Z) (Some 250000%Q) (Some "1 Main St"))
    ok_env empty_world =
  (Ok (LoanService.mkHttp 404 (LoanService.HttpError "User not found")), empty_world).
Proof. split; reflexivity. Qed.

(** C9 (corrected): for a request that passes [createLoanSchema], if it
    names an existing user the loan is inserted as PENDING_VERIFICATION under
    the next id and the VERIFY_DOCUMENTS send is attempted; whether or not
    that send succeeds, the caller gets 201 with that id and
    PENDING_VERIFICATION and the loan stays PENDING_VERIFICATION, and a failed
    send leaves nothing on the verification queue.  If it names an unknown
    user the answer is 404 and nothing is written. *)
Theorem C9_create_survives_enqueue_failure (e : env) (w : world) (uid : Z) (amount : Q)
  (addr : string) :
  LoanService.createLoanSchema_ok
    (LoanService.mkRequest (Some uid) (Some amount) (Some addr)) = true ->
  (uid ∈ users w ->
   fst (LoanService.post_loans (LoanService.mkRequest (Some uid) (Some amount) (Some addr)) e w) =
     Ok (LoanService.mkHttp 201 (LoanService.LoanCreated (next_id w) PENDING_VERIFICATION)) /\
   loans (snd (LoanService.post_loans (LoanService.mkRequest (Some uid) (Some amount) (Some addr)) e w))
     !! next_id w = Some (mkLoan uid (Some amount) addr PENDING_VERIFICATION) /\
   verif_q (snd (LoanService.post_loans (LoanService.mkRequest (Some uid) (Some amount) (Some addr)) e w))
     = (verif_q w ++ if sqs_ok e (tick w)
                     then [mkEnvelope (Some (next_id w)) (Some uid) (Some "VERIFY_DOCUMENTS")]
                     else [])%list /\
   (sqs_ok e (tick w) = false ->
    verif_q (snd (LoanService.post_loans (LoanService.mkRequest (Some uid) (Some amount) (Some addr)) e w))
      = verif_q w)) /\
  (uid ∉ users w ->
   LoanService.post_loans (LoanService.mkRequest (Some uid) (Some amount) (Some addr)) e w =
     (Ok (LoanService.mkHttp 404 (LoanService.HttpError "User not found")), w)).
Proof.
  intros Hv. split; [|intros Hu; apply post_loans_unknown_user; assumption].
  intros Hu.
  assert (Hrun : LoanService.post_loans (LoanService.mkRequest (Some uid) (Some amount) (Some addr)) e w =
     (Ok (LoanService.mkHttp 201 (LoanService.LoanCreated (next_id w) PENDING_VERIFICATION)),
      let w1 := bump_tick (set_next_id (Z.succ (next_id w))
                  (set_loans (<[next_id w := mkLoan uid (Some amount) addr PENDING_VERIFICATION]>
                                (loans w)) w)) in
      if sqs_ok e (tick w)
      then push_verif (mkEnvelope (Some (next_id w)) (Some uid) (Some "VERIFY_DOCUMENTS")) w1
      else w1)).
  { unfold LoanService.post_loans. rewrite Hv. cbn.
    rewrite bool_decide_eq_true_2 by exact Hu. cbn.
    unfold LoanService.sendSQSMessage, send_verification, try_catch, oracle, bind. cbn.
    destruct (sqs_ok e (tick w)); reflexivity. }
  rewrite Hrun. cbv zeta.
  destruct (sqs_ok e (tick w)); cbn; (split; [reflexivity|]);
    (split; [apply lookup_insert_eq|]); rewrite ?app_nil_r; split; auto; discriminate.
Qed.

Lemma C9_create_survives_enqueue_failure_witness :
  (fst (LoanService.post_loans (LoanService.mkRequest (Some 7%Z) (Some 250000%Q) (Some "1 Main St"))
          sqs_down_env (mkWorld ∅ {[7%Z]} 1 [] [] [] [] [] 0)) =
     Ok (LoanService.mkHttp 201 (LoanService.LoanCreated 1 PENDING_VERIFICATION)) /\
   loans (snd (LoanService.post_loans
                 (LoanService.mkRequest (Some 7%Z) (Some 250000%Q) (Some "1 Main St"))
                 sqs_down_env (mkWorld ∅ {[7%Z]} 1 [] [] [] [] [] 0))) !! 1%Z
     = Some (mkLoan 7 (Some 250000%Q) "1 Main St" PENDING_VERIFICATION) /\
   verif_q (snd (LoanService.post_loans
                   (LoanService.mkRequest (Some 7%Z) (Some 250000%Q) (Some "1 Main St"))
                   sqs_down_env (mkWorld ∅ {[7%Z]} 1 [] [] [] [] [] 0))) = []) /\
  LoanService.post_loans (LoanService.mkRequest (Some 7%Z) (Some 250000%Q) (Some "1 Main St"))
    sqs_down_env empty_world =
    (Ok (LoanService.mkHttp 404 (LoanService.HttpError "User not found")), empty_world).
Proof.
  assert (Hin : (7%Z : Z) ∈ users (mkWorld ∅ {[7%Z]} 1 [] [] [] [] [] 0)) by set_solver.
  assert (Hout : (7%Z : Z) ∉ users empty_world) by set_solver.
  destruct (proj1 (C9_create_survives_enqueue_failure sqs_down_env
                     (mkWorld ∅ {[7%Z]} 1 [] [] [] [] [] 0) 7%Z 250000%Q "1 Main St" eq_refl) Hin)
    as (H1 & H2 & _ & H4).
  split; [split; [exact H1|]; split; [exact H2|exact (H4 eq_refl)]|].
  exact (proj2 (C9_create_survives_enqueue_failure sqs_down_env empty_world
                  7%Z 250000%Q "1 Main St" eq_refl) Hout).
Defined.

(** C10: with [LOAN_APPROVED_TOPIC_ARN] unset, an approved loan is still
    set to APPROVED and counted as processed, but [sns.publish] is never
    called and neither publish log line is written: the only log lines are
    'Processing message' and the status update. *)
Theorem C10_no_topic_no_publish (e : env) (w : world) (r : Eligibility.lambda_record)
  (id : Z) (uid : option Z) (l : loan) (a : Q) :
  Eligibility.body r = Some (mkEnvelope (Some id) uid (Some "CHECK_ELIGIBILITY")) ->
  id <> 0%Z -> loans w !! id = Some l -> loanAmount l = Some a -> Qlt_bool 0 a = true ->
  Qlt_bool a 1000000 = true ->
  Qlt_bool (random e (tick w)) (7 # 10) = true ->
  LOAN_APPROVED_TOPIC_ARN e = None ->
  fst (Eligibility.processRecord r e w) =
    Ok (Eligibility.Processed (Eligibility.messageId r) (Some id) APPROVED) /\
  loans (snd (Eligibility.processRecord r e w)) !! id = Some (set_status APPROVED l) /\
  sns_calls (snd (Eligibility.processRecord r e w)) = sns_calls w /\
  logs (snd (Eligibility.processRecord r e w)) =
    (logs w ++ [LProcessing (Some id) (Some "CHECK_ELIGIBILITY");
                LStatusUpdated (Some id) APPROVED "Approved based on eligibility rules"])%list.
Proof.
  intros Hb Hid Hl Ha Hpos Hmax Hr Ht.
  rewrite (processRecord_check e w r id uid l a Hb Hid Hl Ha Hpos). cbv zeta.
  rewrite Hr, Hmax, Ht. cbn.
  split; [reflexivity|]. split; [apply alter_status_lookup; exact Hl|].
  split; [reflexivity|]. rewrite <- app_assoc. reflexivity.
Qed.

Lemma C10_no_topic_no_publish_witness :
  fst (Eligibility.processRecord (check_rec 1) no_topic_env
         (with_loans {[1%Z := sample_loan VERIFIED]})) =
    Ok (Eligibility.Processed "m-1" (Some 1%Z) APPROVED) /\
  loans (snd (Eligibility.processRecord (check_rec 1) no_topic_env
                (with_loans {[1%Z := sample_loan VERIFIED]}))) !! 1%Z
    = Some (set_status APPROVED (sample_loan VERIFIED)) /\
  sns_calls (snd (Eligibility.processRecord (check_rec 1) no_topic_env
                    (with_loans {[1%Z := sample_loan VERIFIED]}))) = [] /\
  logs (snd (Eligibility.processRecord (check_rec 1) no_topic_env
               (with_loans {[1%Z := sample_loan VERIFIED]}))) =
    [LProcessing (Some 1%Z) (Some "CHECK_ELIGIBILITY");
     LStatusUpdated (Some 1%Z) APPROVED "Approved based on eligibility rules"].
Proof.
  apply (C10_no_topic_no_publish no_topic_env (with_loans {[1%Z := sample_loan VERIFIED]})
           (check_rec 1) 1%Z (Some 7%Z) (sample_loan VERIFIED) 250000%Q);
    try reflexivity; discriminate.
Defined.

(** ** Further properties of the code *)

Lemma status_only_writes_refl (P : Z -> status -> Prop) (m : gmap Z loan) :
  status_only_writes P m m.
Proof. intros j. left. reflexivity. Qed.

Lemma status_only_writes_alter (P : Z -> status -> Prop) (m : gmap Z loan) (id : Z) (st : status) :
  P id st -> status_only_writes P m (alter (set_status st) id m).
Proof.
  intros HP j. destruct (decide (j = id)) as [->|Hne].
  - rewrite lookup_alter_eq. destruct (m !! id) as [l|] eqn:E; [|left; reflexivity].
    right. exists l, st. auto.
  - left. apply lookup_alter_ne. congruence.
Qed.

Lemma status_only_writes_trans (P : Z -> status -> Prop) (m1 m2 m3 : gmap Z loan) :
  status_only_writes P m1 m2 -> status_only_writes P m2 m3 -> status_only_writes P m1 m3.
Proof.
  intros H12 H23 j. destruct (H23 j) as [E23 | (l2 & st2 & E2 & E3 & HP2)].
  - rewrite E23. apply H12.
  - right. destruct (H12 j) as [E12 | (l1 & st1 & E1 & E2' & HP1)].
    + exists l2, st2. rewrite <- E12. auto.
    + rewrite E2 in E2'. injection E2' as ->. exists l1, st2.
      split; [exact E1|]. split; [exact E3|exact HP2].
Qed.

Lemma status_only_writes_mono (P P' : Z -> status -> Prop) (m m' : gmap Z loan) :
  (forall j st, P j st -> P' j st) -> status_only_writes P m m' -> status_only_writes P' m m'.
Proof.
  intros HPP H j. destruct (H j) as [E | (l & st & E1 & E2 & HP)]; [left; exact E|].
  right. exists l, st. auto.
Qed.
Lemma handleMessage_effect (m : sqs_message) (e : env) (w : world) :
  exists w', Verification.handleMessage m e w = (Ok tt, w') /\
   (loans w' = loans w \/
    exists b id st, Body m = Some b /\ env_loanId b = Some id /\
      (st = VERIFIED \/ st = VERIFICATION_FAILED) /\
      loans w' = alter (set_status st) id (loans w)) /\
   (elig_q w' = elig_q w \/
    exists b, Body m = Some b /\ env_action b = Some "VERIFY_DOCUMENTS" /\
      elig_q w' = (elig_q w ++ [mkEnvelope (env_loanId b) (env_userId b) (Some "CHECK_ELIGIBILITY")])%list) /\
   (deleted w' = deleted w \/ deleted w' = (deleted w ++ [ReceiptHandle m])%list).
Proof.
  destruct (Body m) as [[bl bu ba]|] eqn:Hb.
  - destruct (decide (ba = Some "VERIFY_DOCUMENTS")) as [->|Ha].
    + destruct bl as [id|].
      * unfold Verification.handleMessage, bind.
        rewrite (processMessage_verify e w m id bu Hb).
        destruct (Qlt_bool (random e (tick w)) (9 # 10)), (sqs_ok e (S (tick w)));
          cbn; unfold Verification.delete_message, try_catch, bind, oracle; cbn;
          try destruct (sqs_ok e _); cbn; eexists; (split; [reflexivity|]); pick_effect.
      * unfold Verification.handleMessage, Verification.processMessage, try_catch, bind, parse_body.
        rewrite Hb. cbn. eexists; split; [reflexivity|]. pick_effect.
    + unfold Verification.handleMessage, bind.
      rewrite (processMessage_other_action e w m _ Hb Ha). cbn.
      eexists; split; [reflexivity|]. pick_effect.
  - unfold Verification.handleMessage, Verification.processMessage, try_catch, bind, parse_body.
    rewrite Hb. cbn. eexists; split; [reflexivity|]. pick_effect.
Qed.

Lemma pollBatch_cons (m : sqs_message) (ms : list sqs_message) (e : env) (w w1 : world) :
  Verification.handleMessage m e w = (Ok tt, w1) ->
  Verification.pollBatch (m :: ms) e w = Verification.pollBatch ms e w1.
Proof. intros H. cbn [Verification.pollBatch]. unfold bind. rewrite H. reflexivity. Qed.

(** [pollMessages] never lets one message stop the loop: every message
    of a received batch is handled, whatever its body and whatever the
    store, SQS or [Math.random()] do, and the round ends normally (so the
    next poll is scheduled after the short delay). *)
Theorem pollBatch_never_throws (ms : list sqs_message) (e : env) (w : world) :
  fst (Verification.pollBatch ms e w) = Ok tt.
Proof.
  revert w. induction ms as [|m ms IH]; intros w; [reflexivity|].
  destruct (handleMessage_effect m e w) as (w1 & Hrun & _).
  rewrite (pollBatch_cons m ms e w w1 Hrun). apply IH.
Qed.

(** Over a batch, the verification worker only rewrites statuses: no loan
    is created or removed and no other column changes, each changed status
    is VERIFIED or VERIFICATION_FAILED, and it belongs to a loan named by
    the [loanId] of a message of the batch. *)
Theorem pollBatch_status_writes (ms : list sqs_message) (e : env) (w : world) :
  status_only_writes
    (fun j st => (st = VERIFIED \/ st = VERIFICATION_FAILED) /\
                 exists m b, In m ms /\ Body m = Some b /\ env_loanId b = Some j)
    (loans w) (loans (snd (Verification.pollBatch ms e w))).
Proof.
  revert w. induction ms as [|m ms IH]; intros w; [apply status_only_writes_refl|].
  destruct (handleMessage_effect m e w) as (w1 & Hrun & Hl & _).
  rewrite (pollBatch_cons m ms e w w1 Hrun).
  apply status_only_writes_trans with (loans w1).
  - destruct Hl as [-> | (b & id & st & Hb & Hid & Hst & ->)];
      [apply status_only_writes_refl|].
    apply status_only_writes_alter. split; [exact Hst|].
    exists m, b. split; [left; reflexivity|]. auto.
  - eapply status_only_writes_mono; [|apply IH].
    intros j st [Hst (m' & b & Hin & Hb & Hj)]. split; [exact Hst|].
    exists m', b. split; [right; exact Hin|]. auto.
Qed.

(** Over a batch, the only messages sent to the eligibility queue are
    CHECK_ELIGIBILITY messages carrying the [loanId] and [userId] of a
    VERIFY_DOCUMENTS message of the batch, at most one per message. *)
Theorem pollBatch_eligibility_sends (ms : list sqs_message) (e : env) (w : world) :
  exists s, elig_q (snd (Verification.pollBatch ms e w)) = (elig_q w ++ s)%list /\
    length s <= length ms /\
    Forall (fun x => exists m b, In m ms /\ Body m = Some b /\
              env_action b = Some "VERIFY_DOCUMENTS" /\
              x = mkEnvelope (env_loanId b) (env_userId b) (Some "CHECK_ELIGIBILITY")) s.
Proof.
  revert w. induction ms as [|m ms IH]; intros w.
  - exists []. cbn. rewrite app_nil_r. auto.
  - destruct (handleMessage_effect m e w) as (w1 & Hrun & _ & He & _).
    rewrite (pollBatch_cons m ms e w w1 Hrun).
    destruct (IH w1) as (s & Hs & Hlen & Hall). rewrite Hs.
    assert (Hall' : Forall (fun x => exists m' b, In m' (m :: ms) /\ Body m' = Some b /\
              env_action b = Some "VERIFY_DOCUMENTS" /\
              x = mkEnvelope (env_loanId b) (env_userId b) (Some "CHECK_ELIGIBILITY")) s).
    { apply Forall_forall. intros x Hx. rewrite Forall_forall in Hall.
      destruct (Hall x Hx) as (m' & b & Hin & Hr). exists m', b. split; [right; exact Hin|exact Hr]. }
    clear Hall. rename Hall' into Hall.
    destruct He as [-> | (b & Hb & Ha & ->)].
    + exists s. cbn. split; [reflexivity|]. split; [lia|exact Hall].
    + eexists. rewrite <- app_assoc. split; [reflexivity|]. cbn. split; [lia|].
      constructor; [|exact Hall].
      exists m, b. split; [left; reflexivity|]. auto.
Qed.

(** Over a batch, the only receipt handles deleted from the verification
    queue are those of messages of the batch, at most one per message. *)
Theorem pollBatch_deletes (ms : list sqs_message) (e : env) (w : world) :
  exists d, deleted (snd (Verification.pollBatch ms e w)) = (deleted w ++ d)%list /\
    length d <= length ms /\
    Forall (fun h => exists m, In m ms /\ ReceiptHandle m = h) d.
Proof.
  revert w. induction ms as [|m ms IH]; intros w.
  - exists []. cbn. rewrite app_nil_r. auto.
  - destruct (handleMessage_effect m e w) as (w1 & Hrun & _ & _ & Hd).
    rewrite (pollBatch_cons m ms e w w1 Hrun).
    destruct (IH w1) as (d & Hds & Hlen & Hall). rewrite Hds.
    assert (Hall' : Forall (fun h => exists m', In m' (m :: ms) /\ ReceiptHandle m' = h) d).
    { apply Forall_forall. intros h Hh. rewrite Forall_forall in Hall.
      destruct (Hall h Hh) as (m' & Hin & Hr). exists m'. split; [right; exact Hin|exact Hr]. }
    clear Hall. rename Hall' into Hall.
    destruct Hd as [-> | ->].
    + exists d. cbn. split; [reflexivity|]. split; [lia|exact Hall].
    + eexists. rewrite <- app_assoc. split; [reflexivity|]. cbn. split; [lia|].
      constructor; [|exact Hall]. exists m. split; [left|]; reflexivity.
Qed.

(** A VERIFY_DOCUMENTS message whose verification fails sets the loan
    to VERIFICATION_FAILED, sends nothing to the eligibility queue and is
    still a success: it is deleted from the verification queue (when the
    delete call succeeds). *)
Theorem verification_failed_path (e : env) (w : world) (m : sqs_message) (id : Z)
  (uid : option Z) (l : loan) :
  Body m = Some (mkEnvelope (Some id) uid (Some "VERIFY_DOCUMENTS")) ->
  loans w !! id = Some l ->
  Qlt_bool (random e (tick w)) (9 # 10) = false ->
  sqs_ok e (S (tick w)) = true ->
  loans (snd (Verification.handleMessage m e w)) !! id = Some (set_status VERIFICATION_FAILED l) /\
  elig_q (snd (Verification.handleMessage m e w)) = elig_q w /\
  deleted (snd (Verification.handleMessage m e w)) = (deleted w ++ [ReceiptHandle m])%list.
Proof.
  intros Hb Hl Hfail Hdel.
  assert (Hrun : Verification.handleMessage m e w =
            (Ok tt, push_deleted (ReceiptHandle m)
               (bump_tick (set_loans (alter (set_status VERIFICATION_FAILED) id (loans w))
                                     (bump_tick w))))).
  { unfold Verification.handleMessage, bind.
    rewrite (processMessage_verify e w m id uid Hb), Hfail. cbn.
    unfold Verification.delete_message, try_catch, bind, oracle. cbn.
    rewrite Hdel. reflexivity. }
  rewrite Hrun. cbn. split; [apply alter_status_lookup; exact Hl|]. auto.
Qed.

Lemma verification_failed_path_witness :
  loans (snd (Verification.handleMessage (verify_msg 1) high_draw_env
                (with_loans {[1%Z := sample_loan PENDING_VERIFICATION]}))) !! 1%Z
    = Some (set_status VERIFICATION_FAILED (sample_loan PENDING_VERIFICATION)) /\
  elig_q (snd (Verification.handleMessage (verify_msg 1) high_draw_env
                (with_loans {[1%Z := sample_loan PENDING_VERIFICATION]}))) = [] /\
  deleted (snd (Verification.handleMessage (verify_msg 1) high_draw_env
                (with_loans {[1%Z := sample_loan PENDING_VERIFICATION]}))) = ["rh-1"].
Proof.
  apply (verification_failed_path high_draw_env (with_loans {[1%Z := sample_loan PENDING_VERIFICATION]})
           (verify_msg 1) 1%Z (Some 7%Z)); reflexivity.
Defined.

(** A message whose body does not parse as JSON changes nothing and is
    not deleted: it is left on the queue. *)
Theorem unparseable_message_left (e : env) (w : world) (m : sqs_message) :
  Body m = None ->
  Verification.handleMessage m e w = (Ok tt, w).
Proof.
  intros Hb. unfold Verification.handleMessage, Verification.processMessage,
    try_catch, bind, parse_body. rewrite Hb. reflexivity.
Qed.

Lemma unparseable_message_left_witness :
  Verification.handleMessage (mkMsg "rh-3" None) ok_env empty_world = (Ok tt, empty_world).
Proof. apply unparseable_message_left. reflexivity. Defined.

(** A VERIFY_DOCUMENTS message without a [loanId] draws a verification
    result, then the UPDATE rejects the [undefined] bind parameter: nothing
    is written, enqueued or deleted, and the message stays on the queue. *)
Theorem missing_loanId_left (e : env) (w : world) (m : sqs_message) (uid : option Z) :
  Body m = Some (mkEnvelope None uid (Some "VERIFY_DOCUMENTS")) ->
  Verification.processMessage m e w = (Ok (Verification.mkResult (ReceiptHandle m) false), bump_tick w) /\
  Verification.handleMessage m e w = (Ok tt, bump_tick w).
Proof.
  intros Hb.
  assert (Hrun : Verification.processMessage m e w =
                 (Ok (Verification.mkResult (ReceiptHandle m) false), bump_tick w)).
  { unfold Verification.processMessage, try_catch, bind, parse_body. rewrite Hb. reflexivity. }
  split; [exact Hrun|]. unfold Verification.handleMessage, bind. rewrite Hrun. reflexivity.
Qed.

Lemma missing_loanId_left_witness :
  Verification.handleMessage (mkMsg "rh-4" (Some (mkEnvelope None (Some 7%Z) (Some "VERIFY_DOCUMENTS"))))
    ok_env empty_world = (Ok tt, bump_tick empty_world).
Proof. apply (missing_loanId_left ok_env empty_world _ (Some 7%Z)). reflexivity. Defined.

(** The status write precedes the enqueue: whenever handling a message
    for an existing loan sends a CHECK_ELIGIBILITY message, that loan has
    already been set to VERIFIED, and the one message sent carries the
    [loanId] and [userId] of the incoming message. *)
Theorem enqueue_after_verified (e : env) (w : world) (m : sqs_message) (b : envelope)
  (id : Z) (l : loan) :
  Body m = Some b -> env_loanId b = Some id -> loans w !! id = Some l ->
  elig_q (snd (Verification.handleMessage m e w)) <> elig_q w ->
  loans (snd (Verification.handleMessage m e w)) !! id = Some (set_status VERIFIED l) /\
  elig_q (snd (Verification.handleMessage m e w)) =
    (elig_q w ++ [mkEnvelope (Some id) (env_userId b) (Some "CHECK_ELIGIBILITY")])%list.
Proof.
  intros Hb Hid Hl Hne. destruct b as [bl bu ba]. cbn in Hid. subst bl.
  destruct (decide (ba = Some "VERIFY_DOCUMENTS")) as [->|Ha].
  - unfold Verification.handleMessage, bind in *.
    rewrite (processMessage_verify e w m id bu Hb) in *.
    destruct (Qlt_bool (random e (tick w)) (9 # 10)), (sqs_ok e (S (tick w))); cbn in *;
      unfold Verification.delete_message, try_catch, bind, oracle in *; cbn in *;
      try destruct (sqs_ok e _); cbn in *;
      solve [split; [apply alter_status_lookup; exact Hl | reflexivity] | congruence].
  - exfalso. apply Hne. unfold Verification.handleMessage, bind.
    rewrite (processMessage_other_action e w m _ Hb Ha). reflexivity.
Qed.

Lemma enqueue_after_verified_witness :
  loans (snd (Verification.handleMessage (verify_msg 1) ok_env
                (with_loans {[1%Z := sample_loan PENDING_VERIFICATION]}))) !! 1%Z
    = Some (set_status VERIFIED (sample_loan PENDING_VERIFICATION)) /\
  elig_q (snd (Verification.handleMessage (verify_msg 1) ok_env
                 (with_loans {[1%Z := sample_loan PENDING_VERIFICATION]}))) =
    [mkEnvelope (Some 1%Z) (Some 7%Z) (Some "CHECK_ELIGIBILITY")].
Proof.
  apply (enqueue_after_verified ok_env (with_loans {[1%Z := sample_loan PENDING_VERIFICATION]})
           (verify_msg 1) (mkEnvelope (Some 1%Z) (Some 7%Z) (Some "VERIFY_DOCUMENTS")));
    try reflexivity; discriminate.
Defined.

Lemma processRecord_effect (r : Eligibility.lambda_record) (e : env) (w : world) :
  exists o w', Eligibility.processRecord r e w = (Ok o, w') /\
  record_outcome_ok r o /\
  ((Eligibility.is_processed o = false /\ loans w' = loans w /\ sns_calls w' = sns_calls w) \/
   exists (b : envelope) id l a st,
     Eligibility.body r = Some (Eligibility.BObject b) /\ env_loanId b = Some id /\
     env_action b = Some "CHECK_ELIGIBILITY" /\
     o = Eligibility.Processed (Eligibility.messageId r) (Some id) st /\
     loans w !! id = Some l /\ loanAmount l = Some a /\ Qlt_bool 0 a = true /\
     ((st = APPROVED /\ Qlt_bool a 1000000 = true) \/ st = REJECTED) /\
     loans w' = alter (set_status st) id (loans w) /\
     exists c, sns_calls w' = (sns_calls w ++ c)%list /\
       Forall (fun p => n_status (fst p) = APPROVED /\ n_loanId (fst p) = Some id) c /\
       length c <= 1 /\
       (st = REJECTED \/ Eligibility.truthy_str (LOAN_APPROVED_TOPIC_ARN e) = false -> c = [])).
Proof.
  destruct (Eligibility.body r) as [[|[bl bu ba]]|] eqn:Hb.
  { unfold Eligibility.processRecord, try_catch, bind, Eligibility.parse_record_body. rewrite Hb. cbn.
    do 2 eexists. split; [reflexivity|]. split; [reflexivity|]. left. auto. }
  2:{ unfold Eligibility.processRecord, try_catch, bind, Eligibility.parse_record_body. rewrite Hb. cbn.
      do 2 eexists. split; [reflexivity|]. split; [reflexivity|]. left. auto. }
  destruct (Eligibility.truthy_id bl && Eligibility.truthy_str ba) eqn:Ht.
  2:{ unfold Eligibility.processRecord, try_catch, bind, Eligibility.parse_record_body. rewrite Hb. cbn.
      rewrite <- negb_andb, Ht. cbn.
      do 2 eexists. split; [reflexivity|]. split; [reflexivity|]. left. auto. }
  apply andb_true_iff in Ht as [Hti Hts].
  destruct bl as [id|]; [|discriminate Hti].
  assert (Hid : id <> 0%Z).
  { intros ->. discriminate Hti. }
  assert (Hid' : Z.eqb id 0 = false) by (apply Z.eqb_neq; exact Hid).
  destruct (decide (ba = Some "CHECK_ELIGIBILITY")) as [->|Ha].
  2:{ unfold Eligibility.processRecord, try_catch, bind, Eligibility.parse_record_body. rewrite Hb. cbn.
      rewrite Hid', Hts. cbn. rewrite decide_False by exact Ha. cbn.
      do 2 eexists. split; [reflexivity|]. split; [reflexivity|]. left. auto. }
  destruct (loans w !! id) as [l|] eqn:Hl.
  2:{ unfold Eligibility.processRecord, try_catch, bind, Eligibility.parse_record_body. rewrite Hb. cbn.
      rewrite Hid'. cbn. rewrite decide_True by reflexivity. cbn. rewrite Hl. cbn.
      do 2 eexists. split; [reflexivity|]. split; [reflexivity|]. left. auto. }
  destruct (loanAmount l) as [a|] eqn:Ham.
  2:{ unfold Eligibility.processRecord, try_catch, bind, Eligibility.parse_record_body. rewrite Hb. cbn.
      rewrite Hid'. cbn. rewrite decide_True by reflexivity. cbn. rewrite Hl.
      unfold Eligibility.calculateEligibility. rewrite Ham. cbn.
      do 2 eexists. split; [reflexivity|]. split; [reflexivity|]. left. auto. }
  destruct (Qle_bool a 0) eqn:Hle.
  { unfold Eligibility.processRecord, try_catch, bind, Eligibility.parse_record_body. rewrite Hb. cbn.
    rewrite Hid'. cbn. rewrite decide_True by reflexivity. cbn. rewrite Hl.
    unfold Eligibility.calculateEligibility. rewrite Ham, Hle. cbn.
    do 2 eexists. split; [reflexivity|]. split; [reflexivity|]. left. auto. }
  assert (Hpos : Qlt_bool 0 a = true) by (unfold Qlt_bool; rewrite Hle; reflexivity).
  rewrite (processRecord_check e w r id bu l a Hb Hid Hl Ham Hpos). cbv zeta.
  do 2 eexists. split; [reflexivity|]. split.
  { split; [reflexivity|]. do 2 eexists. split; [exact Hb|]. split; [reflexivity|].
    split; [reflexivity|]. split; [reflexivity|].
    destruct (Qlt_bool (random e (tick w)) (7 # 10)), (Qlt_bool a 1000000); cbn; auto. }
  right.
  exists (mkEnvelope (Some id) bu (Some "CHECK_ELIGIBILITY")), id, l, a.
  destruct (Qlt_bool (random e (tick w)) (7 # 10)) eqn:Hr, (Qlt_bool a 1000000) eqn:Hm; cbn;
    [destruct (Eligibility.truthy_str (LOAN_APPROVED_TOPIC_ARN e)) eqn:Htop;
     [destruct (sns_ok e (S (tick w)))|]| | |];
    eexists; (split; [reflexivity|]); (split; [reflexivity|]); (split; [reflexivity|]);
    (split; [reflexivity|]); (split; [exact Hl|]); (split; [exact Ham|]);
    (split; [exact Hpos|]); (split; [auto|]); (split; [reflexivity|]).
  - exists [(mkNotification (Some id) bu APPROVED "Approved based on eligibility rules", true)].
    cbn. split; [reflexivity|]. split; [repeat constructor|]. split; [lia|].
    intros [H|H]; discriminate.
  - exists [(mkNotification (Some id) bu APPROVED "Approved based on eligibility rules", false)].
    cbn. split; [reflexivity|]. split; [repeat constructor|]. split; [lia|].
    intros [H|H]; discriminate.
  - exists []. rewrite app_nil_r. cbn. auto.
  - exists []. rewrite app_nil_r. cbn. auto.
  - exists []. rewrite app_nil_r. cbn. auto.
  - exists []. rewrite app_nil_r. cbn. auto.
Qed.

Lemma processRecords_effect (rs : list Eligibility.lambda_record) (e : env) (w : world) :
  exists outs w', Eligibility.processRecords rs e w = (Ok outs, w') /\
  Forall2 record_outcome_ok rs outs /\
  status_only_writes (elig_write rs) (loans w) (loans w') /\
  exists c, sns_calls w' = (sns_calls w ++ c)%list /\ length c <= length rs /\
    Forall (approved_publish rs) c /\
    (Eligibility.truthy_str (LOAN_APPROVED_TOPIC_ARN e) = false -> c = []).
Proof.
  revert w. induction rs as [|r rs IH]; intros w.
  { exists [], w. split; [reflexivity|]. split; [constructor|].
    split; [apply status_only_writes_refl|]. exists []. rewrite app_nil_r. cbn. auto. }
  destruct (processRecord_effect r e w) as (o & w1 & Hrun & Hok & Heff).
  destruct (IH w1) as (outs & w2 & Hrun2 & Hoks & Hw2 & c2 & Hc2 & Hlen2 & Hpub2 & Htop2).
  exists (o :: outs), w2.
  split. { cbn. unfold bind at 1. rewrite Hrun. unfold bind. rewrite Hrun2. reflexivity. }
  split; [constructor; assumption|].
  assert (Hsub : forall j st, elig_write rs j st -> elig_write (r :: rs) j st).
  { intros j st [Hst (r' & b & Hin & Hb)]. split; [exact Hst|]. exists r', b. split; [right; exact Hin|exact Hb]. }
  assert (Hpsub : forall p, approved_publish rs p -> approved_publish (r :: rs) p).
  { intros p [Hst (r' & b & j & Hin & Hb)]. split; [exact Hst|]. exists r', b, j. split; [right; exact Hin|exact Hb]. }
  destruct Heff as [(_ & Hl1 & Hs1) | (b & id & l & a & st & Hb & Hid & Hact & Ho & Hl & Ham & Hpos & Hst & Hl1 & c1 & Hs1 & Hpub1 & Hlen1 & Htop1)].
  - split.
    { rewrite <- Hl1. eapply status_only_writes_mono; [exact Hsub|exact Hw2]. }
    exists c2. rewrite Hc2, Hs1. split; [reflexivity|]. cbn. split; [lia|].
    split; [|exact Htop2]. rewrite Forall_forall in Hpub2 |- *. auto.
  - split.
    { apply status_only_writes_trans with (loans w1).
      - rewrite Hl1. apply status_only_writes_alter. split.
        + destruct Hst as [[-> _]| ->]; auto.
        + exists r, b. split; [left; reflexivity|]. auto.
      - eapply status_only_writes_mono; [exact Hsub|exact Hw2]. }
    exists (c1 ++ c2)%list. rewrite Hc2, Hs1, app_assoc. split; [reflexivity|].
    rewrite length_app. cbn. split; [lia|]. split.
    + apply Forall_app. split.
      * rewrite Forall_forall in Hpub1 |- *. intros p Hp. destruct (Hpub1 p Hp) as [Hs Hj].
        split; [exact Hs|]. exists r, b, id. split; [left; reflexivity|]. auto.
      * rewrite Forall_forall in Hpub2 |- *. auto.
    + intros Hf. rewrite (Htop1 (or_intror Hf)), (Htop2 Hf). reflexivity.
Qed.

Lemma handler_effect (rs : list Eligibility.lambda_record) (e : env) (w : world) :
  exists resp w', Eligibility.handler rs e w = (Ok resp, w') /\
  status_only_writes (elig_write rs) (loans w) (loans w') /\
  (exists c, sns_calls w' = (sns_calls w ++ c)%list /\ length c <= length rs /\
     Forall (approved_publish rs) c /\
     (Eligibility.truthy_str (LOAN_APPROVED_TOPIC_ARN e) = false -> c = [])) /\
  (db_up e = false ->
     resp = Eligibility.mkResponse 500 (Eligibility.ExecutionError "connect ECONNREFUSED") /\
     loans w' = loans w /\ sns_calls w' = sns_calls w) /\
  (db_up e = true ->
     exists outs, Forall2 record_outcome_ok rs outs /\
     resp = Eligibility.mkResponse 200
              (Eligibility.Completed (filter Eligibility.is_processed outs)
                 (filter (fun o => negb (Eligibility.is_processed o)) outs))).
Proof.
  destruct (db_up e) eqn:Hup.
  - destruct (processRecords_effect rs e (push_log LDbConnected (push_log LTriggered w)))
      as (outs & w1 & Hrun & Hoks & Hw1 & c & Hc & Hlen & Hpub & Htop).
    do 2 eexists. split.
    { unfold Eligibility.handler, Eligibility.getDbConnection, try_catch, bind, get_env, log, modify, ret.
      cbn. rewrite Hup. cbn. unfold bind, ret. rewrite Hrun. cbn. rewrite ?Hup. reflexivity. }
    split; [exact Hw1|]. split; [exists c; cbn; auto|].
    split; [discriminate|]. intros _. exists outs. split; [exact Hoks|reflexivity].
  - do 2 eexists. split.
    { unfold Eligibility.handler, Eligibility.getDbConnection, try_catch, bind, get_env, log, modify, ret.
      cbn. rewrite Hup. cbn. rewrite ?Hup. reflexivity. }
    cbn. split; [apply status_only_writes_refl|].
    split; [exists []; rewrite app_nil_r; cbn; split; [reflexivity|]; split; [lia|]; auto|].
    split; [auto|]. discriminate.
Qed.

(** Extra: with the database unreachable, [handler] answers 500 with the
    connection error and neither writes a loan nor publishes. *)
Theorem handler_db_down (rs : list Eligibility.lambda_record) (e : env) (w : world) :
  db_up e = false ->
  fst (Eligibility.handler rs e w) =
    Ok (Eligibility.mkResponse 500 (Eligibility.ExecutionError "connect ECONNREFUSED")) /\
  loans (snd (Eligibility.handler rs e w)) = loans w /\
  sns_calls (snd (Eligibility.handler rs e w)) = sns_calls w.
Proof.
  intros Hdown.
  destruct (handler_effect rs e w) as (resp & w' & Hrun & _ & _ & Hd & _).
  rewrite Hrun. cbn. destruct (Hd Hdown) as (-> & Hl & Hs). auto.
Qed.

Lemma handler_db_down_witness :
  fst (Eligibility.handler [check_rec 1] db_down_env
         (with_loans {[1%Z := sample_loan VERIFIED]})) =
    Ok (Eligibility.mkResponse 500 (Eligibility.ExecutionError "connect ECONNREFUSED")).
Proof. exact (proj1 (handler_db_down _ db_down_env _ eq_refl)). Defined.

(** Extra: with the database reachable, [handler] answers 200 and every
    record yields exactly one entry, in order, carrying its [messageId]; a
    processed entry comes from a CHECK_ELIGIBILITY object body with a
    [loanId] and carries APPROVED or REJECTED. *)
Theorem handler_one_outcome_per_record (rs : list Eligibility.lambda_record) (e : env) (w : world) :
  db_up e = true ->
  exists outs,
    Forall2 record_outcome_ok rs outs /\
    length (filter Eligibility.is_processed outs) +
    length (filter (fun o => negb (Eligibility.is_processed o)) outs) = length rs /\
    fst (Eligibility.handler rs e w) =
      Ok (Eligibility.mkResponse 200
            (Eligibility.Completed (filter Eligibility.is_processed outs)
               (filter (fun o => negb (Eligibility.is_processed o)) outs))).
Proof.
  intros Hup.
  destruct (handler_effect rs e w) as (resp & w' & Hrun & _ & _ & _ & Hu).
  destruct (Hu Hup) as (outs & Hoks & ->).
  exists outs. split; [exact Hoks|]. split; [|rewrite Hrun; reflexivity].
  rewrite (Forall2_length _ _ _ Hoks). clear.
  induction outs as [|o outs IH]; [reflexivity|].
  destruct (Eligibility.is_processed o) eqn:Ho; cbn; rewrite Ho; cbn;
    repeat case_decide; try tauto; cbn;
    rewrite ?Nat.add_succ_r; f_equal; exact IH.
Qed.

Lemma handler_one_outcome_per_record_witness :
  exists outs,
    Forall2 record_outcome_ok [check_rec 1; Eligibility.mkRecord "m-2" None] outs /\
    length (filter Eligibility.is_processed outs) +
    length (filter (fun o => negb (Eligibility.is_processed o)) outs) = 2 /\
    fst (Eligibility.handler [check_rec 1; Eligibility.mkRecord "m-2" None] ok_env
           (with_loans {[1%Z := sample_loan VERIFIED]})) =
      Ok (Eligibility.mkResponse 200
            (Eligibility.Completed (filter Eligibility.is_processed outs)
               (filter (fun o => negb (Eligibility.is_processed o)) outs))).
Proof. exact (handler_one_outcome_per_record _ ok_env _ eq_refl). Defined.

(** Extra: [handler] creates and deletes no loan and changes no column
    but the status; each changed status is APPROVED or REJECTED and belongs
    to a loan named by a CHECK_ELIGIBILITY record of the event. *)
Theorem handler_status_writes (rs : list Eligibility.lambda_record) (e : env) (w : world) :
  status_only_writes (elig_write rs) (loans w) (loans (snd (Eligibility.handler rs e w))).
Proof.
  destruct (handler_effect rs e w) as (resp & w' & Hrun & Hw & _).
  rewrite Hrun. exact Hw.
Qed.

(** Extra: [handler] publishes at most once per record, only APPROVED
    notifications for loans named by CHECK_ELIGIBILITY records, and nothing
    when [LOAN_APPROVED_TOPIC_ARN] is unset or empty. *)
Theorem handler_publishes (rs : list Eligibility.lambda_record) (e : env) (w : world) :
  exists c, sns_calls (snd (Eligibility.handler rs e w)) = (sns_calls w ++ c)%list /\
    length c <= length rs /\
    Forall (approved_publish rs) c /\
    (Eligibility.truthy_str (LOAN_APPROVED_TOPIC_ARN e) = false -> c = []).
Proof.
  destruct (handler_effect rs e w) as (resp & w' & Hrun & _ & Hc & _).
  rewrite Hrun. exact Hc.
Qed.

(** Extra: a processed record read an existing loan with a positive amount
    (below 1000000 when approved) and wrote only its status; a failed record
    changes no loan and publishes nothing; the loop body never throws. *)
Theorem processRecord_outcome (r : Eligibility.lambda_record) (e : env) (w : world) :
  match fst (Eligibility.processRecord r e w) with
  | Ok (Eligibility.Processed _ (Some id) st) =>
      exists l a, loans w !! id = Some l /\ loanAmount l = Some a /\ Qlt_bool 0 a = true /\
        (st = APPROVED -> Qlt_bool a 1000000 = true) /\
        loans (snd (Eligibility.processRecord r e w)) = alter (set_status st) id (loans w)
  | Ok (Eligibility.Failed _ _) =>
      loans (snd (Eligibility.processRecord r e w)) = loans w /\
      sns_calls (snd (Eligibility.processRecord r e w)) = sns_calls w
  | _ => False
  end.
Proof.
  destruct (processRecord_effect r e w) as (o & w' & Hrun & _ & Heff).
  rewrite Hrun. cbn.
  destruct Heff as [(Hp & Hl & Hs) | (b & id & l & a & st & Hb & Hid & Hact & -> & Hl & Ham & Hpos & Hst & Hl' & _)].
  - destruct o; [discriminate Hp|]. auto.
  - exists l, a. split; [exact Hl|]. split; [exact Ham|]. split; [exact Hpos|]. split; [|exact Hl'].
    intros ->. destruct Hst as [[_ H]|H]; [exact H|discriminate H].
Qed.

Lemma key_of_inject (k : Z) : LoanRoutes.key_of (inject_Z k) = Some k.
Proof.
  unfold LoanRoutes.key_of, Qred, inject_Z.
  pose proof (Z.ggcd_gcd k 1) as Hg. pose proof (Z.ggcd_correct_divisors k 1) as Hd.
  destruct (Z.ggcd k 1) as [g [aa bb]]. cbn in Hg, Hd |- *.
  rewrite Z.gcd_1_r in Hg. subst g. destruct Hd as [Ha Hb].
  rewrite Z.mul_1_l in Ha, Hb. subst aa bb. reflexivity.
Qed.

Lemma set_loans_same (w : world) : set_loans (loans w) w = w.
Proof. destruct w; reflexivity. Qed.

(** Extra: a valid request from a known user inserts the loan with status
    PENDING_VERIFICATION under the next id, advances the counter, and
    enqueues VERIFY_DOCUMENTS exactly when the SQS call succeeds. *)
Theorem post_loans_created (uid : Z) (amount : Q) (addr : string) (e : env) (w : world) :
  LoanService.createLoanSchema_ok (LoanService.mkRequest (Some uid) (Some amount) (Some addr)) = true ->
  uid ∈ users w ->
  let res := LoanService.post_loans (LoanService.mkRequest (Some uid) (Some amount) (Some addr)) e w in
  fst res = Ok (LoanService.mkHttp 201 (LoanService.LoanCreated (next_id w) PENDING_VERIFICATION)) /\
  loans (snd res) = <[next_id w := mkLoan uid (Some amount) addr PENDING_VERIFICATION]> (loans w) /\
  next_id (snd res) = Z.succ (next_id w) /\
  verif_q (snd res) =
    (verif_q w ++ if sqs_ok e (tick w)
                  then [mkEnvelope (Some (next_id w)) (Some uid) (Some "VERIFY_DOCUMENTS")]
                  else [])%list /\
  elig_q (snd res) = elig_q w /\ users (snd res) = users w.
Proof.
  intros Hok Hu. unfold LoanService.post_loans. rewrite Hok. cbn.
  unfold bind, get_world. rewrite bool_decide_eq_true_2 by exact Hu. cbn.
  unfold LoanService.sendSQSMessage, send_verification, try_catch, bind, oracle, modify, ret, throw.
  cbn. destruct (sqs_ok e (tick w)); cbn; rewrite ?app_nil_r; repeat split.
Qed.

Lemma post_loans_created_witness :
  let res := LoanService.post_loans
               (LoanService.mkRequest (Some 7%Z) (Some 250000%Q) (Some "1 Main St"))
               ok_env (mkWorld ∅ {[7%Z]} 1 [] [] [] [] [] 0) in
  fst res = Ok (LoanService.mkHttp 201 (LoanService.LoanCreated 1 PENDING_VERIFICATION)) /\
  loans (snd res) = <[1%Z := mkLoan 7 (Some 250000%Q) "1 Main St" PENDING_VERIFICATION]> ∅ /\
  next_id (snd res) = 2%Z /\
  verif_q (snd res) = [mkEnvelope (Some 1%Z) (Some 7%Z) (Some "VERIFY_DOCUMENTS")] /\
  elig_q (snd res) = [] /\ users (snd res) = {[7%Z]}.
Proof.
  assert (Hu : (7%Z : Z) ∈ users (mkWorld ∅ {[7%Z]} 1 [] [] [] [] [] 0)) by set_solver.
  exact (post_loans_created 7 250000 "1 Main St" ok_env (mkWorld ∅ {[7%Z]} 1 [] [] [] [] [] 0)
           eq_refl Hu).
Defined.

(** Extra: [POST /loans] keeps every key below the AUTO_INCREMENT counter
    and never overwrites an existing loan. *)
Theorem post_loans_keys_below_next_id (req : LoanService.create_request) (e : env) (w : world) :
  (forall k, is_Some (loans w !! k) -> (k < next_id w)%Z) ->
  let w' := snd (LoanService.post_loans req e w) in
  (forall k, is_Some (loans w' !! k) -> (k < next_id w')%Z) /\
  (forall k l, loans w !! k = Some l -> loans w' !! k = Some l).
Proof.
  intros Hinv. cbv zeta.
  destruct (LoanService.createLoanSchema_ok req) eqn:Hok.
  2:{ rewrite post_loans_validation by exact Hok. cbn. auto. }
  destruct req as [[uid|] [amount|] [addr|]]; try discriminate Hok.
  destruct (decide (uid ∈ users w)) as [Hu|Hu].
  2:{ rewrite post_loans_unknown_user by assumption. cbn. auto. }
  destruct (post_loans_created uid amount addr e w Hok Hu) as (_ & Hl & Hn & _).
  rewrite Hl, Hn. split.
  - intros k Hk. destruct (decide (k = next_id w)) as [->|Hne]; [lia|].
    rewrite lookup_insert_ne in Hk by congruence. specialize (Hinv k Hk). lia.
  - intros k l Hk. rewrite lookup_insert_ne; [exact Hk|].
    intros <-. specialize (Hinv _ (mk_is_Some _ _ Hk)). lia.
Qed.

Lemma post_loans_keys_below_next_id_witness :
  let w' := snd (LoanService.post_loans
                   (LoanService.mkRequest (Some 7%Z) (Some 250000%Q) (Some "1 Main St"))
                   ok_env (mkWorld {[1%Z := sample_loan VERIFIED]} {[7%Z]} 2 [] [] [] [] [] 0)) in
  (forall k, is_Some (loans w' !! k) -> (k < next_id w')%Z) /\
  (forall k l, loans (mkWorld {[1%Z := sample_loan VERIFIED]} {[7%Z]} 2 [] [] [] [] [] 0) !! k = Some l ->
               loans w' !! k = Some l).
Proof.
  apply post_loans_keys_below_next_id.
  intros k Hk. cbn in Hk. destruct (decide (k = 1%Z)) as [->|Hne]; [cbn; lia|].
  rewrite lookup_singleton_ne in Hk by congruence. destruct Hk as [? Hk]. discriminate Hk.
Defined.

(** Extra: the loan created by [POST /loans] is returned by a
    [GET /loans/:id] whose id MySQL reads as the id of the 201 response
    (its decimal form, for one). *)
Theorem post_then_get (uid : Z) (amount : Q) (addr : string) (e : env) (w : world) :
  LoanService.createLoanSchema_ok (LoanService.mkRequest (Some uid) (Some amount) (Some addr)) = true ->
  uid ∈ users w ->
  fst (LoanRoutes.get_loan (LoanRoutes.PNumber (inject_Z (next_id w))) e
         (snd (LoanService.post_loans (LoanService.mkRequest (Some uid) (Some amount) (Some addr)) e w))) =
    Ok (LoanRoutes.mkRoute 200
          (LoanRoutes.RLoan (next_id w) (mkLoan uid (Some amount) addr PENDING_VERIFICATION))).
Proof.
  intros Hok Hu.
  destruct (post_loans_created uid amount addr e w Hok Hu) as (_ & Hl & _).
  unfold LoanRoutes.get_loan, LoanRoutes.select_loan, bind, get_world, ret. cbn.
  rewrite key_of_inject, Hl, lookup_insert_eq. reflexivity.
Qed.

Lemma post_then_get_witness :
  fst (LoanRoutes.get_loan (LoanRoutes.PNumber (inject_Z 1)) ok_env
         (snd (LoanService.post_loans
                 (LoanService.mkRequest (Some 7%Z) (Some 250000%Q) (Some "1 Main St")) ok_env
                 (mkWorld ∅ {[7%Z]} 1 [] [] [] [] [] 0)))) =
    Ok (LoanRoutes.mkRoute 200
          (LoanRoutes.RLoan 1 (mkLoan 7 (Some 250000%Q) "1 Main St" PENDING_VERIFICATION))).
Proof.
  assert (Hu : (7%Z : Z) ∈ users (mkWorld ∅ {[7%Z]} 1 [] [] [] [] [] 0)) by set_solver.
  exact (post_then_get 7 250000 "1 Main St" ok_env (mkWorld ∅ {[7%Z]} 1 [] [] [] [] [] 0)
           eq_refl Hu).
Defined.

(** Extra: [GET /loans/:id] with an id that MySQL reads as the integer [k]
    returns row [k] or 404, and changes nothing. *)
Theorem get_by_key (k : Z) (e : env) (w : world) :
  LoanRoutes.get_loan (LoanRoutes.PNumber (inject_Z k)) e w =
    (Ok (match loans w !! k with
         | Some l => LoanRoutes.mkRoute 200 (LoanRoutes.RLoan k l)
         | None => LoanRoutes.mkRoute 404 (LoanRoutes.RError "Loan not found")
         end), w).
Proof.
  unfold LoanRoutes.get_loan, LoanRoutes.select_loan, bind, get_world, ret. cbn.
  rewrite key_of_inject. destruct (loans w !! k); reflexivity.
Qed.

(** Extra: [PUT /loans/:id] on a missing loan answers 200 "Loan updated
    successfully" although nothing is changed. *)
Theorem put_missing_loan_reports_success (k : Z) (r : LoanRoutes.update_request) (e : env) (w : world) :
  LoanRoutes.updateLoanSchema_ok r = true ->
  (LoanRoutes.upd_loanAmount r, LoanRoutes.upd_propertyAddress r) <> (None, None) ->
  loans w !! k = None ->
  LoanRoutes.put_loan (LoanRoutes.PNumber (inject_Z k)) r e w =
    (Ok (LoanRoutes.mkRoute 200 (LoanRoutes.RMessage "Loan updated successfully")), w).
Proof.
  intros Hs Hf Hl. unfold LoanRoutes.put_loan. rewrite Hs. cbn.
  assert (Hm : alter (LoanRoutes.update_fields r) k (loans w) = loans w).
  { apply map_eq. intros j. destruct (decide (j = k)) as [->|Hne].
    - rewrite lookup_alter_eq, Hl. reflexivity.
    - rewrite lookup_alter_ne by congruence. reflexivity. }
  destruct (LoanRoutes.upd_loanAmount r), (LoanRoutes.upd_propertyAddress r);
    try (exfalso; apply Hf; reflexivity);
    unfold bind, modify, ret; cbn; rewrite key_of_inject, Hm, set_loans_same; reflexivity.
Qed.

Lemma put_missing_loan_reports_success_witness :
  LoanRoutes.put_loan (LoanRoutes.PNumber (inject_Z 2)) (LoanRoutes.mkUpdate (Some 300000%Q) None)
    ok_env (with_loans {[1%Z := sample_loan VERIFIED]}) =
    (Ok (LoanRoutes.mkRoute 200 (LoanRoutes.RMessage "Loan updated successfully")),
     with_loans {[1%Z := sample_loan VERIFIED]}).
Proof.
  apply put_missing_loan_reports_success; [reflexivity|discriminate|reflexivity].
Defined.

(** Extra: [PUT /loans/:id] never creates or deletes a loan, never changes
    a status or an owner, and sends no queue message. *)
Theorem put_keeps_keys_status_owner (p : LoanRoutes.path_param) (r : LoanRoutes.update_request)
  (e : env) (w : world) :
  let w' := snd (LoanRoutes.put_loan p r e w) in
  (forall k, is_Some (loans w' !! k) <-> is_Some (loans w !! k)) /\
  (forall k l', loans w' !! k = Some l' ->
     exists l, loans w !! k = Some l /\ status_of l' = status_of l /\ userId l' = userId l) /\
  elig_q w' = elig_q w /\ verif_q w' = verif_q w.
Proof.
  assert (Hw : snd (LoanRoutes.put_loan p r e w) = w \/
               exists k, snd (LoanRoutes.put_loan p r e w) =
                         set_loans (alter (LoanRoutes.update_fields r) k (loans w)) w).
  { unfold LoanRoutes.put_loan.
    destruct (LoanRoutes.updateLoanSchema_ok r); cbn; [|left; reflexivity].
    destruct (LoanRoutes.valid_id p) as [q|]; cbn; [|left; reflexivity].
    destruct (LoanRoutes.upd_loanAmount r) as [a|], (LoanRoutes.upd_propertyAddress r) as [s|];
      cbn; try (left; reflexivity);
      unfold bind, modify, ret; cbn;
      destruct (LoanRoutes.key_of q) as [k|]; cbn; eauto. }
  cbv zeta. destruct Hw as [-> | [k ->]]; [split; [reflexivity|]; split; [eauto|auto]|].
  cbn. split; [|split; [|auto]].
  - intros j. rewrite lookup_alter_is_Some. reflexivity.
  - intros j l' Hj. rewrite lookup_alter_Some in Hj.
    destruct Hj as [(-> & l & Hl & ->) | (_ & Hl)]; eauto.
Qed.

(** Extra: [DELETE /loans/:id] with an id that MySQL reads as the integer
    [k] deletes exactly row [k] when it exists and answers 404 otherwise,
    with nothing changed. *)
Theorem delete_by_key (k : Z) (e : env) (w : world) :
  LoanRoutes.delete_loan (LoanRoutes.PNumber (inject_Z k)) e w =
    match loans w !! k with
    | Some _ => (Ok (LoanRoutes.mkRoute 200 (LoanRoutes.RMessage "Loan deleted successfully")),
                 set_loans (delete k (loans w)) w)
    | None => (Ok (LoanRoutes.mkRoute 404 (LoanRoutes.RError "Loan not found")), w)
    end.
Proof.
  unfold LoanRoutes.delete_loan, LoanRoutes.select_loan, bind, get_world, modify, ret. cbn.
  rewrite key_of_inject. destruct (loans w !! k); reflexivity.
Qed.

(** Extra: after [DELETE /loans/:id], [GET /loans/:id] answers 404 and
    every other loan is as before. *)
Theorem delete_then_get (k : Z) (e : env) (w : world) :
  fst (LoanRoutes.get_loan (LoanRoutes.PNumber (inject_Z k)) e
         (snd (LoanRoutes.delete_loan (LoanRoutes.PNumber (inject_Z k)) e w))) =
    Ok (LoanRoutes.mkRoute 404 (LoanRoutes.RError "Loan not found")) /\
  (forall j, j <> k ->
     loans (snd (LoanRoutes.delete_loan (LoanRoutes.PNumber (inject_Z k)) e w)) !! j = loans w !! j).
Proof.
  rewrite delete_by_key. destruct (loans w !! k) as [l|] eqn:Hk; cbn [snd].
  - rewrite get_by_key. cbn. rewrite lookup_delete_eq. split; [reflexivity|].
    intros j Hj. apply lookup_delete_ne. congruence.
  - rewrite get_by_key, Hk. split; reflexivity.
Qed.
